(** * Book Catalog API: a shallow embedding of [restapi_106.py]

    The service keeps every record in the process-wide dictionary
    [books_db] (integer id to book data) next to the counter
    [next_book_id], and exposes five handlers over them.  The two
    globals become an explicit [state] that every handler receives and
    returns; an [HTTPException] raised by a handler becomes an outcome
    of its own, and so does an exception nobody catches. *)

From Stdlib Require Import ZArith List String Ascii Bool Lia DecimalString.
From Stdlib Require DecimalZ.
Import ListNotations.

Local Open Scope Z_scope.
Local Open Scope string_scope.

(** ** Request and storage models *)

(** [class Book(BaseModel)]: the validated body of a POST.  Python's
    [int] is unbounded, hence [Z]. *)
Module Book.
Record t : Type := mk {
  title : string;
  author : string;
  isbn : string;
  publication_year : Z;
  genre : string;
  available : bool
}.
End Book.

(** [class BookUpdate(BaseModel)]: every field is [Optional[...] = None].
    The handler only ever reads [model_dump(exclude_unset=True)], which
    keeps exactly the fields the client sent, an explicit [null]
    included.  A field is therefore [None] when the body did not mention
    it, [Some None] when the body set it to [null], and [Some (Some v)]
    when the body gave the value [v]. *)
Module BookUpdate.
Record t : Type := mk {
  title : option (option string);
  author : option (option string);
  isbn : option (option string);
  publication_year : option (option Z);
  genre : option (option string);
  available : option (option bool)
}.

Definition unset : t := mk None None None None None None.
End BookUpdate.

(** The value stored under an id in [books_db]: a dictionary with the
    six keys of [Book].  Each value is what [model_dump] produced or what
    a later [update] wrote, so it may be Python's [None]. *)
Module BookData.
Record t : Type := mk {
  title : option string;
  author : option string;
  isbn : option string;
  publication_year : option Z;
  genre : option string;
  available : option bool
}.
End BookData.

(** [book.model_dump()] *)
Definition model_dump (book : Book.t) : BookData.t :=
  BookData.mk (Some (Book.title book)) (Some (Book.author book))
              (Some (Book.isbn book)) (Some (Book.publication_year book))
              (Some (Book.genre book)) (Some (Book.available book)).

(** One key of [dict.update]: a key present in the argument overwrites. *)
Definition overwrite {A : Type} (new : option A) (old : A) : A :=
  match new with
  | Some v => v
  | None => old
  end.

(** [book_data.update(update_data)] *)
Definition update (book_data : BookData.t) (update_data : BookUpdate.t)
  : BookData.t :=
  BookData.mk
    (overwrite (BookUpdate.title update_data) (BookData.title book_data))
    (overwrite (BookUpdate.author update_data) (BookData.author book_data))
    (overwrite (BookUpdate.isbn update_data) (BookData.isbn book_data))
    (overwrite (BookUpdate.publication_year update_data)
               (BookData.publication_year book_data))
    (overwrite (BookUpdate.genre update_data) (BookData.genre book_data))
    (overwrite (BookUpdate.available update_data)
               (BookData.available book_data)).

(** ** The dictionary

    A Python [dict] iterates in insertion order and [get_all_books]
    returns its listing in that order, so the catalog is an association
    list: assigning to a present key keeps its place, assigning to a new
    key appends, [del] removes the binding. *)
Definition dict : Type := list (Z * BookData.t).

Definition keys (d : dict) : list Z := map fst d.
Definition values (d : dict) : list BookData.t := map snd d.

(** [d[k]], [None] standing for [KeyError] *)
Fixpoint dict_get (k : Z) (d : dict) : option BookData.t :=
  match d with
  | [] => None
  | (k', v) :: rest => if Z.eqb k' k then Some v else dict_get k rest
  end.

(** [k in d] *)
Definition dict_mem (k : Z) (d : dict) : bool :=
  match dict_get k d with
  | Some _ => true
  | None => false
  end.

(** [d[k] = v] *)
Fixpoint dict_set (k : Z) (v : BookData.t) (d : dict) : dict :=
  match d with
  | [] => [(k, v)]
  | (k', v') :: rest =>
      if Z.eqb k' k then (k, v) :: rest else (k', v') :: dict_set k v rest
  end.

(** [del d[k]] *)
Definition dict_del (k : Z) (d : dict) : dict :=
  filter (fun kv => negb (Z.eqb (fst kv) k)) d.

(** A dictionary holds a key once. *)
Definition dict_wf (d : dict) : Prop := NoDup (keys d).

(** ** Python values in messages and comparisons *)

(** [str(n)] for an [int] *)
Definition str_of_int (n : Z) : string := NilZero.string_of_int (Z.to_int n).

(** How an f-string renders a value that is a string or [None]. *)
Definition fmt_optional (v : option string) : string :=
  match v with
  | Some s => s
  | None => "None"
  end.

(** [==] on values that may be [None] *)
Definition optional_eqb {A : Type} (eqb : A -> A -> bool) (x y : option A)
  : bool :=
  match x, y with
  | Some a, Some b => eqb a b
  | None, None => true
  | _, _ => false
  end.

(** ** Responses *)

Definition HTTP_200_OK : Z := 200.
Definition HTTP_201_CREATED : Z := 201.
Definition HTTP_400_BAD_REQUEST : Z := 400.
Definition HTTP_404_NOT_FOUND : Z := 404.

(** [{"id": book_id, **book_data}] *)
Record BookView : Type := with_id {
  id : Z;
  data : BookData.t
}.

(** The JSON bodies the handlers return. *)
Inductive body : Type :=
| NoBooks (message : string) (books : list BookView)
    (* {"message": ..., "books": []} *)
| BookList (total_books : Z) (books : list BookView)
    (* {"total_books": ..., "books": [...]} *)
| BookBody (book : BookView)
| Created (message : string) (book : BookView)
    (* {"message": ..., "book": {...}} from POST *)
| Updated (message : string) (book : BookView)
    (* {"message": ..., "book": {...}} from PUT *)
| Deleted (message : string) (deleted_book : BookView).
    (* {"message": ..., "deleted_book": {...}} *)

Inductive exn : Type :=
| AttributeError   (* 'NoneType' object has no attribute 'lower' *)
| KeyError.

Inductive outcome : Type :=
| Response (status_code : Z) (content : body)
| HTTPException (status_code : Z) (detail : string)
| Uncaught (e : exn).

(** ** The state and the handlers *)

Record state : Type := mkState {
  books_db : dict;
  next_book_id : Z
}.

Definition mockingbird : BookData.t :=
  BookData.mk (Some "To Kill a Mockingbird") (Some "Harper Lee")
              (Some "978-0-06-112008-4") (Some 1960) (Some "Fiction")
              (Some true).

Definition nineteen_eighty_four : BookData.t :=
  BookData.mk (Some "1984") (Some "George Orwell")
              (Some "978-0-452-28423-4") (Some 1949) (Some "Dystopian")
              (Some true).

(** The module-level initialisation of [books_db] and [next_book_id]. *)
Definition initial_state : state :=
  mkState [(1, mockingbird); (2, nineteen_eighty_four)] 3.

Definition not_found (book_id : Z) : outcome :=
  HTTPException HTTP_404_NOT_FOUND
    ("Book with ID " ++ str_of_int book_id ++ " not found").

(** [GET /books/{book_id}] *)
Definition get_book (book_id : Z) (s : state) : outcome * state :=
  if negb (dict_mem book_id (books_db s)) then (not_found book_id, s)
  else
    match dict_get book_id (books_db s) with
    | Some book_data =>
        (Response HTTP_200_OK (BookBody (with_id book_id book_data)), s)
    | None => (Uncaught KeyError, s)
    end.

(** The loop of [create_book] over [books_db.values()]: does some
    stored isbn equal the new one? *)
Definition isbn_exists (isbn : string) (d : dict) : bool :=
  existsb (fun existing_book =>
             optional_eqb String.eqb (BookData.isbn existing_book) (Some isbn))
          (values d).

(** [POST /books] *)
Definition create_book (book : Book.t) (s : state) : outcome * state :=
  if isbn_exists (Book.isbn book) (books_db s) then
    (HTTPException HTTP_400_BAD_REQUEST
       ("Book with ISBN " ++ Book.isbn book ++ " already exists"), s)
  else
    let book_id := next_book_id s in
    let db := dict_set book_id (model_dump book) (books_db s) in
    let s' := mkState db (book_id + 1) in
    match dict_get book_id db with
    | Some book_data =>
        (Response HTTP_201_CREATED
           (Created "Book created successfully" (with_id book_id book_data)),
         s')
    | None => (Uncaught KeyError, s')
    end.

(** The loop of [update_book] over [books_db.items()]: does a book
    other than [book_id] hold the supplied isbn? *)
Definition isbn_conflict (book_id : Z) (isbn : option string) (d : dict)
  : bool :=
  existsb (fun item =>
             negb (Z.eqb (fst item) book_id)
             && optional_eqb String.eqb (BookData.isbn (snd item)) isbn)
          d.

(** [PUT /books/{book_id}] *)
Definition update_book (book_id : Z) (book_update : BookUpdate.t) (s : state)
  : outcome * state :=
  if negb (dict_mem book_id (books_db s)) then (not_found book_id, s)
  else
    (* model_dump(exclude_unset=True): the fields the body supplied *)
    let update_data := book_update in
    let conflict :=
      match BookUpdate.isbn update_data with
      | Some isbn => if isbn_conflict book_id isbn (books_db s)
                     then Some isbn else None
      | None => None
      end in
    match conflict with
    | Some isbn =>
        (HTTPException HTTP_400_BAD_REQUEST
           ("ISBN " ++ fmt_optional isbn ++ " already exists for another book"),
         s)
    | None =>
        match dict_get book_id (books_db s) with
        | Some book_data =>
            let db := dict_set book_id (update book_data update_data)
                               (books_db s) in
            let s' := mkState db (next_book_id s) in
            match dict_get book_id db with
            | Some updated =>
                (Response HTTP_200_OK
                   (Updated "Book updated successfully"
                            (with_id book_id updated)), s')
            | None => (Uncaught KeyError, s')
            end
        | None => (Uncaught KeyError, s)
        end
    end.

(** [DELETE /books/{book_id}] *)
Definition delete_book (book_id : Z) (s : state) : outcome * state :=
  if negb (dict_mem book_id (books_db s)) then (not_found book_id, s)
  else
    match dict_get book_id (books_db s) with
    | Some deleted_book =>
        (Response HTTP_200_OK
           (Deleted "Book deleted successfully" (with_id book_id deleted_book)),
         mkState (dict_del book_id (books_db s)) (next_book_id s))
    | None => (Uncaught KeyError, s)
    end.

(** [if genre:] holds for a string that is neither absent nor empty;
    [truthy] gives that string, and [None] when the test fails. *)
Definition truthy (genre : option string) : option string :=
  match genre with
  | Some g => if String.eqb g "" then None else Some g
  | None => None
  end.

Section Listing.

(** Python's [str.lower], which the source takes from the language. *)
Variable lower : string -> string.

(** The first comprehension of [get_all_books].  It calls [.lower()] on
    every stored genre in turn, which raises [AttributeError] on the
    first one that is [None]: the whole comprehension is then lost. *)
Fixpoint filter_genre (genre : string) (d : dict) : option dict :=
  match d with
  | [] => Some []
  | (k, v) :: rest =>
      match BookData.genre v with
      | None => None
      | Some stored =>
          match filter_genre genre rest with
          | None => None
          | Some rest' =>
              Some (if String.eqb (lower stored) (lower genre)
                    then (k, v) :: rest' else rest')
          end
      end
  end.

(** The second comprehension: [v["available"] == available]. *)
Definition filter_available (available : bool) (d : dict) : dict :=
  filter (fun kv =>
            optional_eqb Bool.eqb (BookData.available (snd kv))
                         (Some available)) d.

(** [GET /books] *)
Definition get_all_books (genre : option string) (available : option bool)
  (s : state) : outcome * state :=
  match books_db s with
  | [] => (Response HTTP_200_OK (NoBooks "No books in catalog" []), s)
  | _ :: _ =>
      let filtered_books := books_db s in
      let after_genre :=
        match truthy genre with
        | Some g => filter_genre g filtered_books
        | None => Some filtered_books
        end in
      match after_genre with
      | None => (Uncaught AttributeError, s)
      | Some filtered_books =>
          let filtered_books :=
            match available with
            | Some a => filter_available a filtered_books
            | None => filtered_books
            end in
          let result :=
            map (fun kv => with_id (fst kv) (snd kv)) filtered_books in
          (Response HTTP_200_OK (BookList (Z.of_nat (List.length result)) result),
           s)
      end
  end.

End Listing.

(** [str.lower] on ASCII text, which is all the seed data holds. *)
Definition lower_ascii (c : ascii) : ascii :=
  let n := nat_of_ascii c in
  if (Nat.leb 65 n && Nat.leb n 90)%bool then ascii_of_nat (n + 32) else c.

Fixpoint str_lower (s : string) : string :=
  match s with
  | EmptyString => EmptyString
  | String c rest => String (lower_ascii c) (str_lower rest)
  end.

(** ** Runs of the service *)

(** The requests that write to the catalog. *)
Inductive op : Type :=
| Create (book : Book.t)
| Update (book_id : Z) (book_update : BookUpdate.t)
| Delete (book_id : Z).

Definition handle (o : op) (s : state) : outcome * state :=
  match o with
  | Create book => create_book book s
  | Update book_id book_update => update_book book_id book_update s
  | Delete book_id => delete_book book_id s
  end.

Definition step (o : op) (s : state) : state := snd (handle o s).

Definition run (ops : list op) (s : state) : state :=
  fold_left (fun s o => step o s) ops s.

Inductive reachable : state -> Prop :=
| reachable_init : reachable initial_state
| reachable_step : forall s o, reachable s -> reachable (step o s).

(** The [total_books] field of a response, when it has one. *)
Definition total_books_of (o : outcome) : option Z :=
  match o with
  | Response _ (BookList n _) => Some n
  | _ => None
  end.

(** The [books] array of a listing. *)
Definition books_of (o : outcome) : list BookView :=
  match o with
  | Response _ (BookList _ bs) => bs
  | Response _ (NoBooks _ bs) => bs
  | _ => []
  end.

(** ** Facts about the dictionary *)

Lemma optional_eqb_string (x y : option string) :
  optional_eqb String.eqb x y = true <-> x = y.
Proof.
  destruct x as [a|], y as [b|]; simpl; split; intro H;
    try discriminate; try reflexivity.
  - apply String.eqb_eq in H. now subst.
  - injection H as ->. apply String.eqb_refl.
Qed.

Lemma optional_eqb_bool (x : option bool) (b : bool) :
  optional_eqb Bool.eqb x (Some b) = true <-> x = Some b.
Proof.
  destruct x as [a|]; simpl; split; intro H; try discriminate.
  - apply Bool.eqb_prop in H. now subst.
  - injection H as ->. apply Bool.eqb_reflx.
Qed.

Lemma dict_get_In (k : Z) (d : dict) (v : BookData.t) :
  dict_get k d = Some v -> In (k, v) d.
Proof.
  induction d as [|[k' v'] rest IH]; simpl; [discriminate|].
  destruct (Z.eqb_spec k' k) as [->|Hne]; intro H.
  - injection H as ->. now left.
  - right. now apply IH.
Qed.

Lemma dict_get_None (k : Z) (d : dict) :
  dict_get k d = None <-> ~ In k (keys d).
Proof.
  induction d as [|[k' v'] rest IH]; simpl.
  - tauto.
  - destruct (Z.eqb_spec k' k) as [->|Hne]; split; intro H.
    + discriminate.
    + exfalso. apply H. now left.
    + intros [Heq|Hin]; [contradiction|]. now apply IH.
    + apply IH. intro Hin. apply H. now right.
Qed.

Lemma In_keys (k : Z) (v : BookData.t) (d : dict) :
  In (k, v) d -> In k (keys d).
Proof. intro H. unfold keys. change k with (fst (k, v)). now apply in_map. Qed.

Lemma In_dict_get (k : Z) (v : BookData.t) (d : dict) :
  dict_wf d -> In (k, v) d -> dict_get k d = Some v.
Proof.
  unfold dict_wf.
  induction d as [|[k' v'] rest IH]; simpl; intros Hwf Hin; [contradiction|].
  inversion Hwf as [|? ? Hnotin Hrest]; subst.
  destruct Hin as [Heq|Hin].
  - injection Heq as -> ->. now rewrite Z.eqb_refl.
  - destruct (Z.eqb_spec k' k) as [->|Hne]; [|now apply IH].
    exfalso. apply Hnotin. now apply In_keys with v.
Qed.

Lemma dict_mem_true (k : Z) (d : dict) :
  dict_mem k d = true <-> In k (keys d).
Proof.
  unfold dict_mem. destruct (dict_get k d) as [v|] eqn:E.
  - split; [intros _|reflexivity]. apply In_keys with v. now apply dict_get_In.
  - split; [discriminate|]. intro H. now apply dict_get_None in E.
Qed.

Lemma dict_get_set_same (k : Z) (v : BookData.t) (d : dict) :
  dict_get k (dict_set k v d) = Some v.
Proof.
  induction d as [|[k' v'] rest IH]; simpl.
  - now rewrite Z.eqb_refl.
  - destruct (Z.eqb_spec k' k) as [->|Hne]; simpl.
    + now rewrite Z.eqb_refl.
    + destruct (Z.eqb_spec k' k); [contradiction|exact IH].
Qed.

Lemma dict_get_set_other (j k : Z) (v : BookData.t) (d : dict) :
  j <> k -> dict_get j (dict_set k v d) = dict_get j d.
Proof.
  intro Hjk. induction d as [|[k' v'] rest IH]; simpl.
  - destruct (Z.eqb_spec k j); [congruence|reflexivity].
  - destruct (Z.eqb_spec k' k) as [->|Hne]; simpl.
    + destruct (Z.eqb_spec k j); [congruence|reflexivity].
    + now rewrite IH.
Qed.

Lemma dict_set_present (k : Z) (v : BookData.t) (d : dict) :
  In k (keys d) -> keys (dict_set k v d) = keys d.
Proof.
  induction d as [|[k' v'] rest IH]; simpl; [contradiction|].
  intro Hin. destruct (Z.eqb_spec k' k) as [->|Hne]; simpl; [reflexivity|].
  f_equal. apply IH. destruct Hin; [contradiction|assumption].
Qed.

Lemma dict_set_absent (k : Z) (v : BookData.t) (d : dict) :
  ~ In k (keys d) -> dict_set k v d = (d ++ [(k, v)])%list.
Proof.
  induction d as [|[k' v'] rest IH]; simpl; [reflexivity|].
  intro Hnotin. destruct (Z.eqb_spec k' k) as [->|Hne].
  - exfalso. apply Hnotin. now left.
  - f_equal. apply IH. intro H. apply Hnotin. now right.
Qed.

Lemma dict_get_del_same (k : Z) (d : dict) : dict_get k (dict_del k d) = None.
Proof.
  apply dict_get_None. unfold keys, dict_del. intro H.
  apply in_map_iff in H as [[k' v'] [Hk Hin]]. simpl in Hk. subst k'.
  apply filter_In in Hin as [_ Hne]. simpl in Hne.
  rewrite Z.eqb_refl in Hne. discriminate.
Qed.

Lemma dict_get_del_other (j k : Z) (d : dict) :
  j <> k -> dict_get j (dict_del k d) = dict_get j d.
Proof.
  intro Hjk. unfold dict_del.
  induction d as [|[k' v'] rest IH]; simpl; [reflexivity|].
  destruct (Z.eqb_spec k' k) as [->|Hne]; simpl.
  - destruct (Z.eqb_spec k j); [congruence|exact IH].
  - now rewrite IH.
Qed.

Lemma dict_del_absent (k : Z) (d : dict) :
  ~ In k (keys d) -> dict_del k d = d.
Proof.
  unfold dict_del. induction d as [|[k' v'] rest IH]; simpl; [reflexivity|].
  intro Hnotin. destruct (Z.eqb_spec k' k) as [->|Hne]; simpl.
  - exfalso. apply Hnotin. now left.
  - f_equal. apply IH. intro H. apply Hnotin. now right.
Qed.

Lemma dict_del_length (k : Z) (d : dict) :
  dict_wf d -> In k (keys d) ->
  (List.length (dict_del k d) + 1)%nat = List.length d.
Proof.
  unfold dict_wf.
  induction d as [|[k' v'] rest IH]; simpl; intros Hwf Hin; [contradiction|].
  inversion Hwf as [|? ? Hnotin Hrest]; subst.
  unfold dict_del in *. simpl.
  destruct (Z.eqb_spec k' k) as [->|Hne]; simpl.
  - fold (dict_del k rest). rewrite dict_del_absent by assumption. lia.
  - destruct Hin as [Heq|Hin]; [contradiction|].
    rewrite <- (IH Hrest Hin). lia.
Qed.

Lemma dict_del_incl (k : Z) (d : dict) (j : Z) :
  In j (keys (dict_del k d)) -> In j (keys d).
Proof.
  unfold keys, dict_del. intro H.
  apply in_map_iff in H as [kv [Hk Hin]]. apply filter_In in Hin as [Hin _].
  apply in_map_iff. now exists kv.
Qed.

Lemma dict_del_wf (k : Z) (d : dict) : dict_wf d -> dict_wf (dict_del k d).
Proof.
  unfold dict_wf. induction d as [|[k' v'] rest IH]; simpl; intro Hwf.
  - constructor.
  - inversion Hwf as [|? ? Hnotin Hrest]; subst.
    unfold dict_del. simpl. destruct (Z.eqb k' k); simpl.
    + now apply IH.
    + constructor; [|now apply IH].
      intro H. apply Hnotin. now apply dict_del_incl with k.
Qed.

Lemma dict_set_wf (k : Z) (v : BookData.t) (d : dict) :
  dict_wf d -> dict_wf (dict_set k v d).
Proof.
  unfold dict_wf. intro Hwf.
  destruct (in_dec Z.eq_dec k (keys d)) as [Hin|Hnotin].
  - now rewrite dict_set_present.
  - rewrite dict_set_absent by assumption. unfold keys.
    rewrite map_app. simpl. apply NoDup_app; [assumption| |].
    + constructor; [intros []|constructor].
    + intros x Hx [Hk|[]]. subst x. contradiction.
Qed.

Lemma isbn_exists_true (isbn : string) (d : dict) :
  isbn_exists isbn d = true <->
  exists k v, In (k, v) d /\ BookData.isbn v = Some isbn.
Proof.
  unfold isbn_exists, values. rewrite existsb_exists. split.
  - intros [v [Hin Heq]]. apply in_map_iff in Hin as [[k v'] [Hv Hin]].
    simpl in Hv. subst v'. exists k, v. split; [assumption|].
    now apply optional_eqb_string.
  - intros [k [v [Hin Heq]]]. exists v. split.
    + apply in_map_iff. now exists (k, v).
    + now apply optional_eqb_string.
Qed.

Lemma isbn_conflict_true (book_id : Z) (isbn : option string) (d : dict) :
  isbn_conflict book_id isbn d = true <->
  exists k v, In (k, v) d /\ k <> book_id /\ BookData.isbn v = isbn.
Proof.
  unfold isbn_conflict. rewrite existsb_exists. split.
  - intros [[k v] [Hin Hb]]. simpl in Hb.
    apply andb_true_iff in Hb as [Hne Heq]. exists k, v.
    split; [assumption|]. split.
    + intro Hk. subst k. rewrite Z.eqb_refl in Hne. discriminate.
    + now apply optional_eqb_string.
  - intros [k [v [Hin [Hne Heq]]]]. exists (k, v). split; [assumption|].
    simpl. apply andb_true_iff. split.
    + destruct (Z.eqb_spec k book_id); [contradiction|reflexivity].
    + now apply optional_eqb_string.
Qed.

(** ** Creating a book *)

Definition dune : Book.t :=
  Book.mk "Dune" "Frank Herbert" "978-0-441-17271-9" 1965 "Science Fiction"
          false.

(** C1.  A book whose isbn no stored record holds is created: the
    answer is 201 and carries the counter's current value as the id, the
    counter moves up by one, and a [get_book] of that id in the new state
    answers 200 with a record whose title, author, isbn,
    publication_year, genre and available are those of the payload. *)
Theorem create_then_get (book : Book.t) (s : state)
  (Hfresh : forall k v, In (k, v) (books_db s) ->
                        BookData.isbn v <> Some (Book.isbn book)) :
  exists stored s',
    create_book book s =
      (Response 201 (Created "Book created successfully"
                             (with_id (next_book_id s) stored)), s')
    /\ next_book_id s' = next_book_id s + 1
    /\ get_book (next_book_id s) s' =
         (Response 200 (BookBody (with_id (next_book_id s) stored)), s')
    /\ BookData.title stored = Some (Book.title book)
    /\ BookData.author stored = Some (Book.author book)
    /\ BookData.isbn stored = Some (Book.isbn book)
    /\ BookData.publication_year stored = Some (Book.publication_year book)
    /\ BookData.genre stored = Some (Book.genre book)
    /\ BookData.available stored = Some (Book.available book).
Proof.
  assert (Hno : isbn_exists (Book.isbn book) (books_db s) = false).
  { destruct (isbn_exists (Book.isbn book) (books_db s)) eqn:E; [|reflexivity].
    apply isbn_exists_true in E as [k [v [Hin Heq]]].
    exfalso. exact (Hfresh k v Hin Heq). }
  exists (model_dump book).
  exists (mkState (dict_set (next_book_id s) (model_dump book) (books_db s))
                  (next_book_id s + 1)).
  unfold create_book, get_book, dict_mem. rewrite Hno. simpl.
  rewrite dict_get_set_same. simpl. repeat split; reflexivity.
Qed.

Lemma create_then_get_witness :
  (forall k v, In (k, v) (books_db initial_state) ->
               BookData.isbn v <> Some (Book.isbn dune))
  /\ exists stored s',
       get_book 3 s' = (Response 200 (BookBody (with_id 3 stored)), s')
       /\ BookData.title stored = Some "Dune"
       /\ BookData.available stored = Some false.
Proof.
  assert (H : forall k v, In (k, v) (books_db initial_state) ->
                          BookData.isbn v <> Some (Book.isbn dune)).
  { simpl. intros k v [E|[E|[]]]; injection E as <- <-; discriminate. }
  split; [exact H|].
  destruct (create_then_get dune initial_state H)
    as (stored & s' & _ & _ & Hget & Ht & _ & _ & _ & _ & Ha).
  exists stored, s'. repeat split; assumption.
Defined.

(** C2.  A payload whose isbn some stored record already holds is
    refused with 400 and a detail that quotes the isbn; the state that
    comes back, mapping and counter, is the one that went in. *)
Theorem create_duplicate_isbn (book : Book.t) (s : state) (k : Z)
  (v : BookData.t)
  (Hin : In (k, v) (books_db s))
  (Hisbn : BookData.isbn v = Some (Book.isbn book)) :
  create_book book s =
    (HTTPException 400
       ("Book with ISBN " ++ Book.isbn book ++ " already exists"), s).
Proof.
  unfold create_book.
  replace (isbn_exists (Book.isbn book) (books_db s)) with true; [reflexivity|].
  symmetry. apply isbn_exists_true. now exists k, v.
Qed.

Definition mockingbird_again : Book.t :=
  Book.mk "Go Set a Watchman" "Harper Lee" "978-0-06-112008-4" 2015 "Fiction"
          true.

Lemma create_duplicate_isbn_witness :
  In (1, mockingbird) (books_db initial_state)
  /\ BookData.isbn mockingbird = Some (Book.isbn mockingbird_again)
  /\ create_book mockingbird_again initial_state =
       (HTTPException 400
          "Book with ISBN 978-0-06-112008-4 already exists", initial_state).
Proof.
  split; [simpl; now left|]. split; [reflexivity|].
  apply (create_duplicate_isbn mockingbird_again initial_state 1 mockingbird).
  - simpl. now left.
  - reflexivity.
Defined.

(** ** What each writing handler does to the state *)

Lemma update_book_missing (book_id : Z) (u : BookUpdate.t) (s : state) :
  dict_get book_id (books_db s) = None ->
  update_book book_id u s = (not_found book_id, s).
Proof. intro H. unfold update_book, dict_mem. now rewrite H. Qed.

Lemma update_book_conflict (book_id : Z) (u : BookUpdate.t) (s : state)
  (isbn : option string) :
  dict_get book_id (books_db s) <> None ->
  BookUpdate.isbn u = Some isbn ->
  isbn_conflict book_id isbn (books_db s) = true ->
  update_book book_id u s =
    (HTTPException 400
       ("ISBN " ++ fmt_optional isbn ++ " already exists for another book"),
     s).
Proof.
  intros Hget Hu Hc. unfold update_book, dict_mem.
  destruct (dict_get book_id (books_db s)); [|contradiction].
  simpl. now rewrite Hu, Hc.
Qed.

Lemma update_book_applied (book_id : Z) (u : BookUpdate.t) (s : state)
  (book_data : BookData.t) :
  dict_get book_id (books_db s) = Some book_data ->
  (forall isbn, BookUpdate.isbn u = Some isbn ->
                isbn_conflict book_id isbn (books_db s) = false) ->
  update_book book_id u s =
    (Response 200 (Updated "Book updated successfully"
                           (with_id book_id (update book_data u))),
     mkState (dict_set book_id (update book_data u) (books_db s))
             (next_book_id s)).
Proof.
  intros Hget Hno. unfold update_book, dict_mem. rewrite Hget. simpl.
  destruct (BookUpdate.isbn u) as [isbn|] eqn:Hu.
  - rewrite (Hno isbn eq_refl). now rewrite dict_get_set_same.
  - now rewrite dict_get_set_same.
Qed.

(** The three ways [update_book] can go. *)
Lemma update_book_cases (book_id : Z) (u : BookUpdate.t) (s : state) :
  (dict_get book_id (books_db s) = None
   /\ update_book book_id u s = (not_found book_id, s))
  \/ (exists isbn,
        BookUpdate.isbn u = Some isbn
        /\ isbn_conflict book_id isbn (books_db s) = true
        /\ update_book book_id u s =
             (HTTPException 400
                ("ISBN " ++ fmt_optional isbn
                         ++ " already exists for another book"), s))
  \/ (exists book_data,
        dict_get book_id (books_db s) = Some book_data
        /\ (forall isbn, BookUpdate.isbn u = Some isbn ->
                         isbn_conflict book_id isbn (books_db s) = false)
        /\ update_book book_id u s =
             (Response 200 (Updated "Book updated successfully"
                                    (with_id book_id (update book_data u))),
              mkState (dict_set book_id (update book_data u) (books_db s))
                      (next_book_id s))).
Proof.
  destruct (dict_get book_id (books_db s)) as [book_data|] eqn:Hget.
  - right.
    destruct (BookUpdate.isbn u) as [isbn|] eqn:Hu.
    + destruct (isbn_conflict book_id isbn (books_db s)) eqn:Hc.
      * left. exists isbn. repeat split; try assumption.
        apply update_book_conflict; congruence.
      * right. exists book_data. split; [reflexivity|].
        assert (Hno : forall i, BookUpdate.isbn u = Some i ->
                        isbn_conflict book_id i (books_db s) = false)
          by (intros i Hi; congruence).
        split; [congruence|]. apply update_book_applied; congruence.
    + right. exists book_data. split; [reflexivity|].
      split; [discriminate|]. apply update_book_applied; congruence.
  - left. split; [reflexivity|]. now apply update_book_missing.
Qed.

Lemma delete_book_missing (book_id : Z) (s : state) :
  dict_get book_id (books_db s) = None ->
  delete_book book_id s = (not_found book_id, s).
Proof. intro H. unfold delete_book, dict_mem. now rewrite H. Qed.

Lemma delete_book_present (book_id : Z) (s : state) (book_data : BookData.t) :
  dict_get book_id (books_db s) = Some book_data ->
  delete_book book_id s =
    (Response 200 (Deleted "Book deleted successfully"
                           (with_id book_id book_data)),
     mkState (dict_del book_id (books_db s)) (next_book_id s)).
Proof. intro H. unfold delete_book, dict_mem. now rewrite H. Qed.

Lemma get_book_missing (book_id : Z) (s : state) :
  dict_get book_id (books_db s) = None ->
  get_book book_id s = (not_found book_id, s).
Proof. intro H. unfold get_book, dict_mem. now rewrite H. Qed.

Lemma create_book_state (book : Book.t) (s : state) :
  snd (create_book book s) =
    if isbn_exists (Book.isbn book) (books_db s) then s
    else mkState (dict_set (next_book_id s) (model_dump book) (books_db s))
                 (next_book_id s + 1).
Proof.
  unfold create_book.
  destruct (isbn_exists (Book.isbn book) (books_db s)); [reflexivity|].
  simpl. now rewrite dict_get_set_same.
Qed.

(** ** Invariants of the reachable states *)

(** The isbn column of the catalog, in catalog order. *)
Definition isbns (d : dict) : list (option string) :=
  map (fun kv => BookData.isbn (snd kv)) d.

Record invariant (s : state) : Prop := {
  inv_keys : dict_wf (books_db s);
  inv_isbns : NoDup (isbns (books_db s));
  inv_counter : forall k, In k (keys (books_db s)) -> k < next_book_id s
}.

Lemma In_isbns (x : option string) (d : dict) :
  In x (isbns d) <-> exists k v, In (k, v) d /\ BookData.isbn v = x.
Proof.
  unfold isbns. rewrite in_map_iff. split.
  - intros [[k v] [H Hin]]. now exists k, v.
  - intros [k [v [Hin H]]]. now exists (k, v).
Qed.

Lemma In_dict_set (e : Z * BookData.t) (k : Z) (v : BookData.t) (d : dict) :
  In e (dict_set k v d) -> e = (k, v) \/ In e d.
Proof.
  induction d as [|[k' v'] rest IH]; simpl.
  - intros [H|[]]. now left.
  - destruct (Z.eqb k' k); simpl.
    + intros [H|H]; [now left|right; now right].
    + intros [H|H]; [right; now left|].
      destruct (IH H); [now left|right; now right].
Qed.

Lemma dict_set_isbns (k : Z) (v : BookData.t) (d : dict) :
  dict_wf d -> NoDup (isbns d) ->
  (forall k' v', In (k', v') d -> k' <> k ->
                 BookData.isbn v' <> BookData.isbn v) ->
  NoDup (isbns (dict_set k v d)).
Proof.
  unfold dict_wf.
  induction d as [|[k' v'] rest IH]; simpl; intros Hwf Hnd Hother.
  - constructor; [intros []|constructor].
  - inversion Hwf as [|? ? Hk Hwf']; subst.
    inversion Hnd as [|? ? Hi Hnd']; subst.
    destruct (Z.eqb_spec k' k) as [->|Hne]; simpl.
    + constructor; [|assumption].
      intro Hin. apply In_isbns in Hin as [k'' [v'' [Hin Heq]]].
      apply (Hother k'' v''); [now right| |assumption].
      intro E. subst k''. apply Hk. now apply In_keys with v''.
    + constructor.
      * intro Hin. apply In_isbns in Hin as [k'' [v'' [Hin Heq]]].
        apply In_dict_set in Hin as [E|Hin].
        -- injection E as -> ->.
           apply (Hother k' v'); [now left|assumption|now symmetry].
        -- apply Hi. apply In_isbns. now exists k'', v''.
      * apply IH; try assumption.
        intros k'' v'' Hin. apply Hother. now right.
Qed.

Lemma NoDup_isbns_inj (d : dict) (k1 k2 : Z) (v1 v2 : BookData.t) :
  NoDup (isbns d) -> In (k1, v1) d -> In (k2, v2) d ->
  BookData.isbn v1 = BookData.isbn v2 -> (k1, v1) = (k2, v2).
Proof.
  induction d as [|[k v] rest IH]; simpl; intros Hnd H1 H2 Heq;
    [contradiction|].
  inversion Hnd as [|? ? Hi Hnd']; subst.
  destruct H1 as [E1|H1], H2 as [E2|H2].
  - congruence.
  - injection E1 as -> ->. exfalso. apply Hi. apply In_isbns.
    exists k2, v2. split; [assumption|now symmetry].
  - injection E2 as -> ->. exfalso. apply Hi. apply In_isbns.
    now exists k1, v1.
  - now apply IH.
Qed.

Lemma dict_del_isbns (k : Z) (d : dict) :
  NoDup (isbns d) -> NoDup (isbns (dict_del k d)).
Proof.
  unfold dict_del.
  induction d as [|[k' v'] rest IH]; simpl; intro Hnd; [constructor|].
  inversion Hnd as [|? ? Hi Hnd']; subst.
  destruct (Z.eqb k' k); simpl; [now apply IH|].
  constructor; [|now apply IH].
  intro Hin. apply Hi. apply In_isbns in Hin as [k'' [v'' [Hin Heq]]].
  apply filter_In in Hin as [Hin _]. apply In_isbns. now exists k'', v''.
Qed.

Lemma initial_invariant : invariant initial_state.
Proof.
  split; simpl.
  - unfold dict_wf. simpl. repeat constructor; simpl; intuition discriminate.
  - repeat constructor; simpl; intuition discriminate.
  - intros k [<-|[<-|[]]]; lia.
Qed.

Lemma create_invariant (book : Book.t) (s : state) :
  invariant s -> invariant (snd (create_book book s)).
Proof.
  intros [Hwf Hnd Hlt]. rewrite create_book_state.
  destruct (isbn_exists (Book.isbn book) (books_db s)) eqn:E;
    [now split|].
  split; simpl.
  - now apply dict_set_wf.
  - apply dict_set_isbns; try assumption.
    intros k' v' Hin _ Heq.
    assert (H : isbn_exists (Book.isbn book) (books_db s) = true)
      by (apply isbn_exists_true; now exists k', v').
    congruence.
  - intros k Hin. unfold keys in Hin.
    apply in_map_iff in Hin as [[k' v'] [Hk Hin]]. simpl in Hk. subst k'.
    apply In_dict_set in Hin as [Heq|Hin].
    + injection Heq as -> _. lia.
    + apply In_keys in Hin. apply Hlt in Hin. lia.
Qed.

Lemma update_invariant (book_id : Z) (u : BookUpdate.t) (s : state) :
  invariant s -> invariant (snd (update_book book_id u s)).
Proof.
  intros [Hwf Hnd Hlt].
  destruct (update_book_cases book_id u s)
    as [[_ ->]|[(isbn & _ & _ & ->)|(r & Hget & Hno & ->)]];
    [now split|now split|].
  assert (Hin : In book_id (keys (books_db s)))
    by (apply In_keys with r; now apply dict_get_In).
  split; simpl.
  - now apply dict_set_wf.
  - apply dict_set_isbns; try assumption.
    intros k' v' Hin' Hne Heq. simpl in Heq.
    destruct (BookUpdate.isbn u) as [isbn|] eqn:Hu; simpl in Heq.
    + assert (H : isbn_conflict book_id isbn (books_db s) = true)
        by (apply isbn_conflict_true; now exists k', v').
      rewrite (Hno isbn eq_refl) in H. discriminate.
    + apply dict_get_In in Hget.
      pose proof (NoDup_isbns_inj _ _ _ _ _ Hnd Hin' Hget Heq) as E.
      congruence.
  - intros k Hk. rewrite dict_set_present in Hk by assumption. now apply Hlt.
Qed.

Lemma delete_invariant (book_id : Z) (s : state) :
  invariant s -> invariant (snd (delete_book book_id s)).
Proof.
  intros [Hwf Hnd Hlt].
  destruct (dict_get book_id (books_db s)) as [r|] eqn:Hget.
  - rewrite (delete_book_present _ _ _ Hget). split; simpl.
    + now apply dict_del_wf.
    + now apply dict_del_isbns.
    + intros k Hk. apply Hlt. now apply dict_del_incl with book_id.
  - rewrite (delete_book_missing _ _ Hget). now split.
Qed.

Lemma step_invariant (o : op) (s : state) :
  invariant s -> invariant (step o s).
Proof.
  destruct o; unfold step; simpl.
  - apply create_invariant.
  - apply update_invariant.
  - apply delete_invariant.
Qed.

Lemma reachable_invariant (s : state) : reachable s -> invariant s.
Proof.
  induction 1 as [|s o _ IH].
  - exact initial_invariant.
  - now apply step_invariant.
Qed.

Lemma run_reachable (ops : list op) (s : state) :
  reachable s -> reachable (run ops s).
Proof.
  revert s. induction ops as [|o ops IH]; simpl; intros s Hr.
  - exact Hr.
  - apply IH. now constructor.
Qed.

Lemma step_counter (o : op) (s : state) :
  next_book_id s <= next_book_id (step o s).
Proof.
  destruct o as [book|book_id u|book_id]; unfold step; simpl.
  - rewrite create_book_state.
    destruct (isbn_exists _ _); simpl; lia.
  - destruct (update_book_cases book_id u s)
      as [[_ ->]|[(isbn & _ & _ & ->)|(r & _ & _ & ->)]]; simpl; lia.
  - destruct (dict_get book_id (books_db s)) as [r|] eqn:Hget.
    + rewrite (delete_book_present _ _ _ Hget). simpl. lia.
    + rewrite (delete_book_missing _ _ Hget). simpl. lia.
Qed.

Lemma run_counter (ops : list op) (s : state) :
  next_book_id s <= next_book_id (run ops s).
Proof.
  revert s. induction ops as [|o ops IH]; simpl; intro s.
  - lia.
  - pose proof (step_counter o s). pose proof (IH (step o s)). lia.
Qed.

Lemma delete_counter (book_id : Z) (s : state) :
  next_book_id (step (Delete book_id) s) = next_book_id s.
Proof.
  unfold step. simpl.
  destruct (dict_get book_id (books_db s)) as [r|] eqn:Hget.
  - now rewrite (delete_book_present _ _ _ Hget).
  - now rewrite (delete_book_missing _ _ Hget).
Qed.

Lemma create_book_id (book : Book.t) (s s' : state) (status : Z)
  (message : string) (view : BookView) :
  create_book book s = (Response status (Created message view), s') ->
  id view = next_book_id s.
Proof.
  unfold create_book. destruct (isbn_exists _ _); [discriminate|].
  simpl. rewrite dict_get_set_same. intro H. injection H as _ _ <- _.
  reflexivity.
Qed.

(** C3.  In a state reached from the seeded one by creates, updates and
    deletes, the isbn column has no repetition: two different ids never
    hold the same isbn. *)
Theorem reachable_unique_isbn (s : state) (Hreach : reachable s) :
  NoDup (isbns (books_db s))
  /\ forall k1 k2 v1 v2,
       dict_get k1 (books_db s) = Some v1 ->
       dict_get k2 (books_db s) = Some v2 ->
       k1 <> k2 -> BookData.isbn v1 <> BookData.isbn v2.
Proof.
  destruct (reachable_invariant s Hreach) as [_ Hnd _].
  split; [exact Hnd|].
  intros k1 k2 v1 v2 H1 H2 Hne Heq.
  apply dict_get_In in H1, H2.
  pose proof (NoDup_isbns_inj _ _ _ _ _ Hnd H1 H2 Heq). congruence.
Qed.

Lemma reachable_unique_isbn_witness :
  reachable (step (Create dune) initial_state)
  /\ NoDup (isbns (books_db (step (Create dune) initial_state))).
Proof.
  assert (H : reachable (step (Create dune) initial_state))
    by (apply reachable_step; apply reachable_init).
  split; [exact H|].
  exact (proj1 (reachable_unique_isbn _ H)).
Defined.

(** C8.  The counter starts at 3, above the seeded ids 1 and 2; no
    request lowers it and a delete leaves it as it is; so an id that was
    in the catalog at some point of a run is smaller than every id a
    later create hands out, whether or not the book was deleted in
    between. *)
Theorem ids_never_reused :
  (keys (books_db initial_state) = [1; 2] /\ next_book_id initial_state = 3)
  /\ (forall o s, next_book_id s <= next_book_id (step o s))
  /\ (forall book_id s,
        next_book_id (step (Delete book_id) s) = next_book_id s)
  /\ (forall ops1 ops2 book k status message view s',
        In k (keys (books_db (run ops1 initial_state))) ->
        create_book book (run ops2 (run ops1 initial_state)) =
          (Response status (Created message view), s') ->
        k < id view).
Proof.
  split; [split; reflexivity|].
  split; [exact step_counter|].
  split; [exact delete_counter|].
  intros ops1 ops2 book k status message view s' Hin Hcreate.
  rewrite (create_book_id _ _ _ _ _ _ Hcreate).
  pose proof (reachable_invariant _ (run_reachable ops1 _ reachable_init))
    as [_ _ Hlt].
  pose proof (run_counter ops2 (run ops1 initial_state)).
  apply Hlt in Hin. lia.
Qed.

Lemma ids_never_reused_witness :
  In 2 (keys (books_db (run [] initial_state)))
  /\ dict_get 2 (books_db (run [Delete 2] (run [] initial_state))) = None
  /\ 2 < id (with_id 3 (model_dump dune)).
Proof.
  split; [simpl; tauto|]. split; [reflexivity|].
  apply (proj2 (proj2 (proj2 ids_never_reused))
           [] [Delete 2] dune 2 201 "Book created successfully"
           (with_id 3 (model_dump dune))
           (mkState [(1, mockingbird); (3, model_dump dune)] 4)).
  - simpl. tauto.
  - reflexivity.
Defined.

(** ** Updating a book *)

(** No item other than [book_id] holds the isbn the body supplies. *)
Definition isbn_free (book_id : Z) (u : BookUpdate.t) (d : dict) : Prop :=
  forall isbn k v,
    BookUpdate.isbn u = Some isbn -> In (k, v) d -> k <> book_id ->
    BookData.isbn v <> isbn.

(** What [update] does to one field, said without [overwrite]. *)
Definition field_applied {A : Type} (supplied : option A) (old new : A)
  : Prop :=
  (forall v, supplied = Some v -> new = v) /\ (supplied = None -> new = old).

Lemma overwrite_applied {A : Type} (supplied : option A) (old : A) :
  field_applied supplied old (overwrite supplied old).
Proof.
  unfold field_applied. destruct supplied as [v|]; simpl; split;
    congruence.
Qed.

Lemma update_book_free (book_id : Z) (u : BookUpdate.t) (s : state)
  (old : BookData.t) :
  dict_get book_id (books_db s) = Some old ->
  isbn_free book_id u (books_db s) ->
  update_book book_id u s =
    (Response 200 (Updated "Book updated successfully"
                           (with_id book_id (update old u))),
     mkState (dict_set book_id (update old u) (books_db s))
             (next_book_id s)).
Proof.
  intros Hget Hfree. apply update_book_applied; [assumption|].
  intros isbn Hu.
  destruct (isbn_conflict book_id isbn (books_db s)) eqn:E; [|reflexivity].
  apply isbn_conflict_true in E as (k & v & Hin & Hne & Heq).
  exfalso. exact (Hfree isbn k v Hu Hin Hne Heq).
Qed.

(** C4.  An update of an id that is present, whose body supplies no
    isbn held by another item, succeeds with 200 and returns the id with
    the full record now stored under it.  In that record every supplied
    field has the supplied value and every other field its old value;
    the records under all other ids, the order of the ids and the counter
    are as before. *)
Theorem update_applies_supplied_fields (book_id : Z) (u : BookUpdate.t)
  (s : state) (old : BookData.t)
  (Hget : dict_get book_id (books_db s) = Some old)
  (Hfree : isbn_free book_id u (books_db s)) :
  exists new s',
    update_book book_id u s =
      (Response 200 (Updated "Book updated successfully"
                             (with_id book_id new)), s')
    /\ dict_get book_id (books_db s') = Some new
    /\ field_applied (BookUpdate.title u)
                     (BookData.title old) (BookData.title new)
    /\ field_applied (BookUpdate.author u)
                     (BookData.author old) (BookData.author new)
    /\ field_applied (BookUpdate.isbn u)
                     (BookData.isbn old) (BookData.isbn new)
    /\ field_applied (BookUpdate.publication_year u)
                     (BookData.publication_year old)
                     (BookData.publication_year new)
    /\ field_applied (BookUpdate.genre u)
                     (BookData.genre old) (BookData.genre new)
    /\ field_applied (BookUpdate.available u)
                     (BookData.available old) (BookData.available new)
    /\ (forall j, j <> book_id ->
                  dict_get j (books_db s') = dict_get j (books_db s))
    /\ keys (books_db s') = keys (books_db s)
    /\ next_book_id s' = next_book_id s.
Proof.
  exists (update old u).
  exists (mkState (dict_set book_id (update old u) (books_db s))
                  (next_book_id s)).
  split; [now apply update_book_free|]. simpl.
  split; [apply dict_get_set_same|].
  repeat (split; [apply overwrite_applied|]).
  split; [intros j Hj; now apply dict_get_set_other|].
  split; [|reflexivity].
  apply dict_set_present. apply In_keys with old. now apply dict_get_In.
Qed.

Definition only_unavailable : BookUpdate.t :=
  BookUpdate.mk None None None None None (Some (Some false)).

Lemma update_applies_supplied_fields_witness :
  dict_get 1 (books_db initial_state) = Some mockingbird
  /\ isbn_free 1 only_unavailable (books_db initial_state)
  /\ exists new s',
       update_book 1 only_unavailable initial_state =
         (Response 200 (Updated "Book updated successfully" (with_id 1 new)),
          s')
       /\ BookData.available new = Some false
       /\ BookData.title new = Some "To Kill a Mockingbird"
       /\ dict_get 2 (books_db s') = Some nineteen_eighty_four.
Proof.
  assert (Hfree : isbn_free 1 only_unavailable (books_db initial_state))
    by (intros isbn k v Hu; discriminate Hu).
  split; [reflexivity|]. split; [exact Hfree|].
  destruct (update_applies_supplied_fields 1 only_unavailable initial_state
              mockingbird eq_refl Hfree)
    as (new & s' & Hup & _ & Ht & _ & _ & _ & _ & Ha & Hother & _).
  exists new, s'. split; [exact Hup|].
  split; [exact (proj1 Ha (Some false) eq_refl)|].
  split; [exact (proj2 Ht eq_refl)|].
  rewrite Hother by discriminate. reflexivity.
Defined.

(** C5.  For an id that is present, [update_book] answers 400 exactly
    when the body supplies an isbn and an item with another id holds that
    value; the detail quotes the value and the state comes back as it
    went in.  Where the isbn column has no repetition, as in every
    reachable state, supplying the book's own isbn is no conflict and
    the update succeeds. *)
Theorem update_conflict_iff (book_id : Z) (u : BookUpdate.t) (s : state)
  (old : BookData.t)
  (Hget : dict_get book_id (books_db s) = Some old) :
  ((exists detail,
      fst (update_book book_id u s) = HTTPException 400 detail)
   <-> (exists isbn k v,
          BookUpdate.isbn u = Some isbn /\ In (k, v) (books_db s)
          /\ k <> book_id /\ BookData.isbn v = isbn))
  /\ (forall status detail,
        fst (update_book book_id u s) = HTTPException status detail ->
        status = 400
        /\ (exists isbn,
              BookUpdate.isbn u = Some isbn
              /\ detail = "ISBN " ++ fmt_optional isbn
                                  ++ " already exists for another book")
        /\ snd (update_book book_id u s) = s)
  /\ (NoDup (isbns (books_db s)) ->
      BookUpdate.isbn u = Some (BookData.isbn old) ->
      exists new s',
        update_book book_id u s =
          (Response 200 (Updated "Book updated successfully"
                                 (with_id book_id new)), s')).
Proof.
  split; [|split].
  - split.
    + intros [detail H].
      destruct (update_book_cases book_id u s)
        as [[Hnone _]|[(isbn & Hu & Hc & _)|(r & _ & _ & E)]].
      * congruence.
      * apply isbn_conflict_true in Hc as (k & v & Hin & Hne & Heq).
        now exists isbn, k, v.
      * rewrite E in H. discriminate.
    + intros (isbn & k & v & Hu & Hin & Hne & Heq).
      eexists. rewrite (update_book_conflict book_id u s isbn).
      * reflexivity.
      * congruence.
      * assumption.
      * apply isbn_conflict_true. now exists k, v.
  - intros status detail H.
    destruct (update_book_cases book_id u s)
      as [[Hnone _]|[(isbn & Hu & _ & E)|(r & _ & _ & E)]].
    + congruence.
    + rewrite E in *. simpl in *. injection H as <- <-.
      split; [reflexivity|]. split; [|reflexivity]. now exists isbn.
    + rewrite E in H. discriminate.
  - intros Hnd Hu. exists (update old u). eexists.
    apply update_book_free; [assumption|].
    intros isbn k v Hu' Hin Hne Heq.
    assert (E : isbn = BookData.isbn old) by congruence. rewrite E in Heq.
    apply dict_get_In in Hget.
    pose proof (NoDup_isbns_inj _ _ _ _ _ Hnd Hin Hget Heq). congruence.
Qed.

Definition take_isbn_of_1 : BookUpdate.t :=
  BookUpdate.mk None None (Some (Some "978-0-06-112008-4")) None None None.

Lemma update_conflict_iff_witness :
  dict_get 2 (books_db initial_state) = Some nineteen_eighty_four
  /\ (exists detail,
        fst (update_book 2 take_isbn_of_1 initial_state) =
          HTTPException 400 detail)
  /\ dict_get 1 (books_db initial_state) = Some mockingbird
  /\ (exists new s',
        update_book 1 take_isbn_of_1 initial_state =
          (Response 200 (Updated "Book updated successfully" (with_id 1 new)),
           s')).
Proof.
  split; [reflexivity|]. split.
  - apply (proj1 (update_conflict_iff 2 take_isbn_of_1 initial_state
                    nineteen_eighty_four eq_refl)).
    exists (Some "978-0-06-112008-4"), 1, mockingbird.
    repeat split; [simpl; now left|discriminate].
  - split; [reflexivity|].
    apply (proj2 (proj2 (update_conflict_iff 1 take_isbn_of_1 initial_state
                           mockingbird eq_refl))).
    + exact (inv_isbns _ initial_invariant).
    + reflexivity.
Defined.







(** ** Listing the catalog *)

Lemma filter_twice {A : Type} (p q : A -> bool) (l : list A) :
  filter q (filter p l) = filter (fun x => p x && q x) l.
Proof.
  induction l as [|x l IH]; simpl; [reflexivity|].
  destruct (p x); simpl; [destruct (q x)|]; now rewrite IH.
Qed.

Section ListingFacts.

Variable lower : string -> string.

(** The genre test of the listing on one stored record. *)
Definition genre_kept (genre : option string) (v : BookData.t) : bool :=
  match truthy genre, BookData.genre v with
  | Some g, Some stored => String.eqb (lower stored) (lower g)
  | Some _, None => false
  | None, _ => true
  end.

(** The availability test of the listing on one stored record. *)
Definition available_kept (available : option bool) (v : BookData.t)
  : bool :=
  match available with
  | Some a => optional_eqb Bool.eqb (BookData.available v) (Some a)
  | None => true
  end.

(** A record passes the filters of a request: its genre equals a
    supplied non-empty genre up to case, and its availability equals a
    supplied one. *)
Definition passes (genre : option string) (available : option bool)
  (v : BookData.t) : Prop :=
  (forall g, genre = Some g -> g <> "" ->
             exists stored,
               BookData.genre v = Some stored /\ lower stored = lower g)
  /\ (forall a, available = Some a -> BookData.available v = Some a).

Lemma truthy_Some (genre : option string) (g : string) :
  truthy genre = Some g <-> genre = Some g /\ g <> "".
Proof.
  unfold truthy. destruct genre as [g'|]; [|split; [discriminate|]].
  - destruct (String.eqb_spec g' "") as [->|Hne]; split.
    + discriminate.
    + intros [E Hne]. injection E as <-. contradiction.
    + intro E. injection E as <-. now split.
    + intros [E _]. now injection E as <-.
  - intros [E _]. discriminate.
Qed.

Lemma kept_passes (genre : option string) (available : option bool)
  (v : BookData.t) :
  genre_kept genre v && available_kept available v = true
  <-> passes genre available v.
Proof.
  rewrite andb_true_iff. unfold passes.
  enough ((genre_kept genre v = true <->
           forall g, genre = Some g -> g <> "" ->
                     exists stored,
                       BookData.genre v = Some stored
                       /\ lower stored = lower g)
          /\ (available_kept available v = true <->
              forall a, available = Some a -> BookData.available v = Some a))
    by tauto.
  split.
  - unfold genre_kept. destruct (truthy genre) as [g|] eqn:Ht.
    + apply truthy_Some in Ht as [-> Hne].
      destruct (BookData.genre v) as [stored|]; split.
      * intros H g' E _. injection E as <-. exists stored.
        split; [reflexivity|]. now apply String.eqb_eq.
      * intro H. destruct (H g eq_refl Hne) as (st & E & Hl).
        injection E as <-. now apply String.eqb_eq.
      * discriminate.
      * intro H. destruct (H g eq_refl Hne) as (st & E & _). discriminate.
    + split; [|reflexivity]. intros _ g E Hne.
      assert (H : truthy genre = Some g) by (apply truthy_Some; now split).
      congruence.
  - unfold available_kept. destruct available as [a|]; split.
    + intros H a' E. injection E as <-. now apply optional_eqb_bool.
    + intro H. apply optional_eqb_bool. now apply H.
    + discriminate.
    + reflexivity.
Qed.

Lemma filter_genre_total (g : string) (d : dict) :
  (forall k v, In (k, v) d -> BookData.genre v <> None) ->
  filter_genre lower g d =
    Some (filter (fun kv =>
                    match BookData.genre (snd kv) with
                    | Some stored => String.eqb (lower stored) (lower g)
                    | None => false
                    end) d).
Proof.
  induction d as [|[k v] rest IH]; simpl; intro Hstr; [reflexivity|].
  destruct (BookData.genre v) as [stored|] eqn:Hg.
  - rewrite IH by (intros k' v' Hin; apply (Hstr k' v'); now right).
    now destruct (String.eqb (lower stored) (lower g)).
  - exfalso. apply (Hstr k v); [now left|assumption].
Qed.

Lemma filter_genre_null (g : string) (d : dict) (k : Z) (v : BookData.t) :
  In (k, v) d -> BookData.genre v = None -> filter_genre lower g d = None.
Proof.
  induction d as [|[k' v'] rest IH]; simpl; intros Hin Hnull;
    [contradiction|].
  destruct Hin as [E|Hin].
  - injection E as -> ->. now rewrite Hnull.
  - destruct (BookData.genre v'); [|reflexivity].
    now rewrite (IH Hin Hnull).
Qed.

(** The listing the filters select, in catalog order. *)
Definition listing (genre : option string) (available : option bool)
  (d : dict) : list BookView :=
  map (fun kv => with_id (fst kv) (snd kv))
      (filter (fun kv => genre_kept genre (snd kv)
                         && available_kept available (snd kv)) d).

Lemma get_all_books_state (genre : option string) (available : option bool)
  (s : state) :
  snd (get_all_books lower genre available s) = s.
Proof.
  unfold get_all_books. destruct (books_db s); [reflexivity|].
  destruct (truthy genre) as [g|]; [|reflexivity].
  now destruct (filter_genre lower g _).
Qed.

Lemma get_all_books_empty (genre : option string) (available : option bool)
  (s : state) :
  books_db s = [] ->
  get_all_books lower genre available s =
    (Response 200 (NoBooks "No books in catalog" []), s).
Proof. intro E. unfold get_all_books. now rewrite E. Qed.

Lemma genre_stage (genre : option string) (d : dict) :
  (forall g, truthy genre = Some g ->
             forall k v, In (k, v) d -> BookData.genre v <> None) ->
  match truthy genre with
  | Some g => filter_genre lower g d
  | None => Some d
  end = Some (filter (fun kv => genre_kept genre (snd kv)) d).
Proof.
  intro Hstr. unfold genre_kept. destruct (truthy genre) as [g|] eqn:Ht.
  - apply filter_genre_total. exact (Hstr g eq_refl).
  - f_equal. clear. induction d as [|x l IH]; simpl; congruence.
Qed.

Lemma available_stage (available : option bool)
  (p : Z * BookData.t -> bool) (d : dict) :
  match available with
  | Some a => filter_available a (filter p d)
  | None => filter p d
  end = filter (fun kv => p kv && available_kept available (snd kv)) d.
Proof.
  destruct available as [a|]; unfold filter_available, available_kept.
  - apply filter_twice.
  - apply filter_ext. intro kv. now rewrite andb_true_r.
Qed.

Lemma get_all_books_listing (genre : option string)
  (available : option bool) (s : state) :
  books_db s <> [] ->
  (forall g, truthy genre = Some g ->
             forall k v, In (k, v) (books_db s) -> BookData.genre v <> None) ->
  get_all_books lower genre available s =
    (Response 200
       (BookList (Z.of_nat (List.length (listing genre available (books_db s))))
                 (listing genre available (books_db s))), s).
Proof.
  intros Hne Hstr. unfold get_all_books, listing.
  pose proof (genre_stage genre (books_db s) Hstr) as Hg.
  destruct (books_db s) as [|e rest]; [congruence|].
  cbv zeta. rewrite Hg, available_stage. reflexivity.
Qed.

(** A stored genre of [None] makes a genre-filtered listing fail. *)
Lemma get_all_books_null_genre (genre : option string)
  (available : option bool) (s : state) (g : string) (k : Z)
  (v : BookData.t) :
  truthy genre = Some g -> In (k, v) (books_db s) ->
  BookData.genre v = None ->
  get_all_books lower genre available s = (Uncaught AttributeError, s).
Proof.
  intros Ht Hin Hnull. unfold get_all_books.
  destruct (books_db s) as [|e rest] eqn:E; [contradiction|].
  rewrite Ht. now rewrite (filter_genre_null g _ k v Hin Hnull).
Qed.

End ListingFacts.

(** C7, as the code has it.  The listing never changes the state.  On
    an empty catalog it answers 200 with the message and an empty list,
    without a count.  On any other catalog, provided every stored genre
    is a string whenever a non-empty genre is asked for, it answers 200
    with the count and the list, the list being the catalog in its order
    cut down to the books that pass: genre equal up to case to a supplied
    non-empty genre (an empty one filters nothing), availability equal to
    a supplied one. *)
Theorem get_all_books_filters (lower : string -> string)
  (genre : option string) (available : option bool) (s : state) :
  snd (get_all_books lower genre available s) = s
  /\ (books_db s = [] ->
      fst (get_all_books lower genre available s) =
        Response 200 (NoBooks "No books in catalog" []))
  /\ (books_db s <> [] ->
      (forall g, genre = Some g -> g <> "" ->
                 forall k v, In (k, v) (books_db s) ->
                             BookData.genre v <> None) ->
      exists keep result,
        fst (get_all_books lower genre available s) =
          Response 200 (BookList (Z.of_nat (List.length result)) result)
        /\ result = map (fun kv => with_id (fst kv) (snd kv))
                        (filter keep (books_db s))
        /\ (forall kv, keep kv = true <->
                       passes lower genre available (snd kv))
        /\ (forall k v, In (with_id k v) result <->
                        In (k, v) (books_db s)
                        /\ passes lower genre available v)).
Proof.
  split; [apply get_all_books_state|].
  split; [intro E; now rewrite get_all_books_empty|].
  intros Hne Hstr.
  exists (fun kv => genre_kept lower genre (snd kv)
                    && available_kept available (snd kv)).
  exists (listing lower genre available (books_db s)).
  split.
  - rewrite get_all_books_listing; [reflexivity|assumption|].
    intros g Ht. apply truthy_Some in Ht as [Hg Hg'].
    now apply (Hstr g).
  - split; [reflexivity|].
    split; [intro kv; apply kept_passes|].
    intros k v. unfold listing. rewrite in_map_iff. split.
    + intros [[k' v'] [E Hin]]. simpl in E. injection E as -> ->.
      apply filter_In in Hin as [Hin Hkeep]. split; [assumption|].
      now apply kept_passes in Hkeep.
    + intros [Hin Hpass]. exists (k, v). split; [reflexivity|].
      apply filter_In. split; [assumption|]. now apply kept_passes.
Qed.

Lemma get_all_books_filters_witness :
  books_db initial_state <> []
  /\ (forall g, Some "FICTION" = Some g -> g <> "" ->
                forall k v, In (k, v) (books_db initial_state) ->
                            BookData.genre v <> None)
  /\ exists keep result,
       fst (get_all_books str_lower (Some "FICTION") (Some true)
                          initial_state) =
         Response 200 (BookList (Z.of_nat (List.length result)) result)
       /\ result = map (fun kv => with_id (fst kv) (snd kv))
                       (filter keep (books_db initial_state)).
Proof.
  assert (Hne : books_db initial_state <> []) by discriminate.
  assert (H : forall g, Some "FICTION" = Some g -> g <> "" ->
                forall k v, In (k, v) (books_db initial_state) ->
                            BookData.genre v <> None).
  { intros g _ _ k v Hin. simpl in Hin.
    destruct Hin as [E|[E|[]]]; injection E as <- <-; discriminate. }
  split; [exact Hne|]. split; [exact H|].
  destruct (proj2 (proj2 (get_all_books_filters str_lower (Some "FICTION")
                            (Some true) initial_state)) Hne H)
    as (keep & result & Hfst & Hres & _).
  exists keep, result. split; assumption.
Defined.

Definition null_genre : BookUpdate.t :=
  BookUpdate.mk None None None None (Some None) None.

(** After the genre of book 1 is set to [null], asking for a genre makes
    the listing raise instead of answering. *)
Example null_genre_listing_raises :
  get_all_books str_lower (Some "Fiction") None
                (step (Update 1 null_genre) initial_state) =
    (Uncaught AttributeError, step (Update 1 null_genre) initial_state).
Proof. reflexivity. Qed.

(** C7 as the spec words it fails where the genre supplied is the empty
    string: the listing of the seeded catalog then holds both books,
    although the genre of neither equals the empty string up to case. *)
Lemma empty_genre_filters_nothing :
  fst (get_all_books str_lower (Some "") None initial_state) =
    Response 200 (BookList 2 [with_id 1 mockingbird;
                              with_id 2 nineteen_eighty_four])
  /\ ~ (forall b,
          In b (books_of (fst (get_all_books str_lower (Some "") None
                                             initial_state))) ->
          exists stored,
            BookData.genre (data b) = Some stored
            /\ str_lower stored = str_lower "").
Proof.
  split; [reflexivity|].
  intro H. destruct (H (with_id 1 mockingbird)) as (stored & E & Hl).
  - simpl. now left.
  - simpl in E. injection E as <-. discriminate.
Qed.

(** C9.  On the seeded catalog a listing with genre "Fiction" holds the
    one book with id 1, "To Kill a Mockingbird", and a listing with
    available true holds the two seed books. *)
Theorem seeded_listing :
  get_all_books str_lower (Some "Fiction") None initial_state =
    (Response 200 (BookList 1 [with_id 1 mockingbird]), initial_state)
  /\ BookData.title mockingbird = Some "To Kill a Mockingbird"
  /\ get_all_books str_lower None (Some true) initial_state =
       (Response 200 (BookList 2 [with_id 1 mockingbird;
                                  with_id 2 nineteen_eighty_four]),
        initial_state).
Proof. split; [reflexivity|]. split; reflexivity. Qed.

(** ** Deleting a book *)

Lemma get_all_books_unfiltered (lower : string -> string) (s : state) :
  books_db s <> [] ->
  fst (get_all_books lower None None s) =
    Response 200
      (BookList (Z.of_nat (List.length (books_db s)))
                (map (fun kv => with_id (fst kv) (snd kv)) (books_db s))).
Proof.
  intro Hne. unfold get_all_books.
  destruct (books_db s) as [|e rest]; [congruence|].
  simpl. now rewrite length_map.
Qed.

(** C6, as the code has it.  Deleting an id that is present answers 200
    with the record that was stored under it, takes that id out of the
    catalog and leaves all other ids and the counter alone; a get of the
    id then answers 404, and the catalog holds one book less.  The
    unfiltered listing reports that number as [total_books] as long as a
    book remains; after the last book is gone it is the message with an
    empty list, which has no [total_books].  Deleting or getting an id
    that is absent answers 404 with a detail that quotes the id and
    leaves the state alone. *)
Theorem delete_removes_record (lower : string -> string) (book_id : Z)
  (s : state) (Hwf : dict_wf (books_db s)) :
  (forall book_data,
     dict_get book_id (books_db s) = Some book_data ->
     exists s',
       delete_book book_id s =
         (Response 200 (Deleted "Book deleted successfully"
                                (with_id book_id book_data)), s')
       /\ dict_get book_id (books_db s') = None
       /\ (forall j, j <> book_id ->
                     dict_get j (books_db s') = dict_get j (books_db s))
       /\ next_book_id s' = next_book_id s
       /\ get_book book_id s' =
            (HTTPException 404
               ("Book with ID " ++ str_of_int book_id ++ " not found"), s')
       /\ (List.length (books_db s') + 1)%nat = List.length (books_db s)
       /\ total_books_of (fst (get_all_books lower None None s)) =
            Some (Z.of_nat (List.length (books_db s)))
       /\ (books_db s' <> [] ->
           total_books_of (fst (get_all_books lower None None s')) =
             Some (Z.of_nat (List.length (books_db s)) - 1))
       /\ (books_db s' = [] ->
           fst (get_all_books lower None None s') =
             Response 200 (NoBooks "No books in catalog" [])))
  /\ (dict_get book_id (books_db s) = None ->
      delete_book book_id s =
        (HTTPException 404
           ("Book with ID " ++ str_of_int book_id ++ " not found"), s)
      /\ get_book book_id s =
           (HTTPException 404
              ("Book with ID " ++ str_of_int book_id ++ " not found"), s)).
Proof.
  split.
  - intros book_data Hget.
    exists (mkState (dict_del book_id (books_db s)) (next_book_id s)).
    assert (Hin : In book_id (keys (books_db s)))
      by (apply In_keys with book_data; now apply dict_get_In).
    pose proof (dict_del_length book_id (books_db s) Hwf Hin) as Hlen.
    split; [now apply delete_book_present|]. simpl.
    split; [apply dict_get_del_same|].
    split; [intros j Hj; now apply dict_get_del_other|].
    split; [reflexivity|].
    split; [apply get_book_missing; apply dict_get_del_same|].
    split; [exact Hlen|].
    split.
    + rewrite get_all_books_unfiltered; [reflexivity|].
      intro E. rewrite E in Hin. contradiction.
    + split.
      * intro Hne. rewrite get_all_books_unfiltered by assumption.
        simpl. f_equal. lia.
      * intro E. now rewrite get_all_books_empty.
  - intro Hnone. split.
    + now apply delete_book_missing.
    + now apply get_book_missing.
Qed.

Lemma delete_removes_record_witness :
  dict_wf (books_db initial_state)
  /\ exists s',
       delete_book 1 initial_state =
         (Response 200 (Deleted "Book deleted successfully"
                                (with_id 1 mockingbird)), s')
       /\ get_book 1 s' = (HTTPException 404 "Book with ID 1 not found", s')
       /\ total_books_of (fst (get_all_books str_lower None None s')) =
            Some 1.
Proof.
  pose proof (inv_keys _ initial_invariant) as Hwf.
  split; [exact Hwf|].
  destruct (proj1 (delete_removes_record str_lower 1 initial_state Hwf)
              mockingbird eq_refl)
    as (s' & Hdel & _ & Hother & _ & Hget & _ & _ & Htotal & _).
  exists s'. split; [exact Hdel|]. split; [exact Hget|].
  apply Htotal. intro E.
  pose proof (Hother 2 ltac:(discriminate)) as H2.
  rewrite E in H2. discriminate.
Defined.

(** C6 as the spec words it fails when the book deleted is the last one:
    the listing before the delete reports [total_books] 1, the listing
    after it is the message with an empty list and reports no
    [total_books] at all, so not 0. *)
Lemma delete_last_book_total_books :
  reachable (step (Delete 2) initial_state)
  /\ total_books_of
       (fst (get_all_books str_lower None None
                           (step (Delete 2) initial_state))) = Some 1
  /\ fst (delete_book 1 (step (Delete 2) initial_state)) =
       Response 200 (Deleted "Book deleted successfully"
                             (with_id 1 mockingbird))
  /\ fst (get_all_books str_lower None None
            (snd (delete_book 1 (step (Delete 2) initial_state)))) =
       Response 200 (NoBooks "No books in catalog" [])
  /\ total_books_of
       (fst (get_all_books str_lower None None
               (snd (delete_book 1 (step (Delete 2) initial_state)))))
     <> Some (1 - 1).
Proof.
  split; [apply reachable_step; apply reachable_init|].
  split; [reflexivity|]. split; [reflexivity|]. split; [reflexivity|].
  simpl. discriminate.
Qed.

(** * Further properties of the handlers *)

(** ** Answers and the state *)

Lemma create_book_cases (book : Book.t) (s : state) :
  (isbn_exists (Book.isbn book) (books_db s) = true
   /\ create_book book s =
        (HTTPException 400
           ("Book with ISBN " ++ Book.isbn book ++ " already exists"), s))
  \/ (isbn_exists (Book.isbn book) (books_db s) = false
      /\ create_book book s =
           (Response 201 (Created "Book created successfully"
                                  (with_id (next_book_id s) (model_dump book))),
            mkState (dict_set (next_book_id s) (model_dump book) (books_db s))
                    (next_book_id s + 1))).
Proof.
  unfold create_book.
  destruct (isbn_exists (Book.isbn book) (books_db s)); [left|right];
    (split; [reflexivity|]); [reflexivity|].
  simpl. now rewrite dict_get_set_same.
Qed.

Lemma get_book_present (book_id : Z) (s : state) (book_data : BookData.t) :
  dict_get book_id (books_db s) = Some book_data ->
  get_book book_id s =
    (Response 200 (BookBody (with_id book_id book_data)), s).
Proof. intro H. unfold get_book, dict_mem. now rewrite H. Qed.

(** X1.  A create, update or delete that answers with an HTTP error has
    written nothing: the state after it is the state before it. *)
Theorem errors_leave_state (o : op) (s : state) (status : Z)
  (detail : string)
  (Herr : fst (handle o s) = HTTPException status detail) :
  step o s = s.
Proof.
  unfold step. destruct o as [book|book_id u|book_id]; simpl in *.
  - destruct (create_book_cases book s) as [[_ E]|[_ E]];
      rewrite E in *; [reflexivity|discriminate].
  - destruct (update_book_cases book_id u s)
      as [[_ E]|[(isbn & _ & _ & E)|(r & _ & _ & E)]];
      rewrite E in *; [reflexivity|reflexivity|discriminate].
  - destruct (dict_get book_id (books_db s)) as [r|] eqn:Hget.
    + rewrite (delete_book_present _ _ _ Hget) in Herr. discriminate.
    + now rewrite (delete_book_missing _ _ Hget).
Qed.

Definition rename_to_taken_isbn : op :=
  Update 2 (BookUpdate.mk (Some (Some "Animal Farm")) None
                          (Some (Some "978-0-06-112008-4")) None None None).

Lemma errors_leave_state_witness :
  fst (handle rename_to_taken_isbn initial_state) =
    HTTPException 400
      "ISBN 978-0-06-112008-4 already exists for another book"
  /\ step rename_to_taken_isbn initial_state = initial_state.
Proof.
  split; [reflexivity|].
  apply (errors_leave_state rename_to_taken_isbn initial_state 400
           "ISBN 978-0-06-112008-4 already exists for another book").
  reflexivity.
Defined.

(** X2.  Neither a get nor a create, update or delete ever ends in an
    exception that is not an [HTTPException]: every [d[k]] in them reads
    a key that is there. *)
Theorem no_uncaught_exception (s : state) (e : exn) :
  (forall book_id, fst (get_book book_id s) <> Uncaught e)
  /\ (forall o, fst (handle o s) <> Uncaught e).
Proof.
  split.
  - intro book_id.
    destruct (dict_get book_id (books_db s)) as [r|] eqn:Hget.
    + rewrite (get_book_present _ _ _ Hget). discriminate.
    + rewrite (get_book_missing _ _ Hget). discriminate.
  - intros [book|book_id u|book_id]; simpl.
    + destruct (create_book_cases book s) as [[_ E]|[_ E]]; rewrite E;
        discriminate.
    + destruct (update_book_cases book_id u s)
        as [[_ E]|[(isbn & _ & _ & E)|(r & _ & _ & E)]]; rewrite E;
        discriminate.
    + destruct (dict_get book_id (books_db s)) as [r|] eqn:Hget.
      * rewrite (delete_book_present _ _ _ Hget). discriminate.
      * rewrite (delete_book_missing _ _ Hget). discriminate.
Qed.

(** X3.  A get, an update and a delete answer 404 exactly when the id
    is not a key of the catalog, an update whatever its body holds, and
    the detail is then the one that quotes the id; a create never answers
    404. *)
Theorem not_found_iff_absent (book_id : Z) (s : state) :
  (forall status detail,
     fst (get_book book_id s) = HTTPException status detail <->
     ~ In book_id (keys (books_db s))
     /\ HTTPException status detail = not_found book_id)
  /\ (forall u detail,
        fst (update_book book_id u s) = HTTPException 404 detail <->
        ~ In book_id (keys (books_db s))
        /\ detail = "Book with ID " ++ str_of_int book_id ++ " not found")
  /\ (forall status detail,
        fst (delete_book book_id s) = HTTPException status detail <->
        ~ In book_id (keys (books_db s))
        /\ HTTPException status detail = not_found book_id)
  /\ (forall book detail,
        fst (create_book book s) <> HTTPException 404 detail).
Proof.
  destruct (dict_get book_id (books_db s)) as [r|] eqn:Hget.
  - assert (Hin : In book_id (keys (books_db s)))
      by (apply In_keys with r; now apply dict_get_In).
    split; [|split; [|split]].
    + intros status detail. rewrite (get_book_present _ _ _ Hget).
      split; [discriminate|tauto].
    + intros u detail.
      destruct (update_book_cases book_id u s)
        as [[E _]|[(isbn & _ & _ & E)|(r' & _ & _ & E)]];
        [congruence| |]; rewrite E; (split; [discriminate|tauto]).
    + intros status detail. rewrite (delete_book_present _ _ _ Hget).
      split; [discriminate|tauto].
    + intros book detail.
      destruct (create_book_cases book s) as [[_ E]|[_ E]]; rewrite E;
        discriminate.
  - assert (Hnot : ~ In book_id (keys (books_db s)))
      by now apply dict_get_None.
    split; [|split; [|split]].
    + intros status detail. rewrite (get_book_missing _ _ Hget). simpl.
      split; [intro E; split; [assumption|now symmetry]|intros [_ E]].
      now symmetry.
    + intros u detail. rewrite (update_book_missing _ _ _ Hget). simpl.
      unfold not_found. split.
      * intro E. injection E as <-. now split.
      * intros [_ ->]. reflexivity.
    + intros status detail. rewrite (delete_book_missing _ _ Hget). simpl.
      split; [intro E; split; [assumption|now symmetry]|intros [_ E]].
      now symmetry.
    + intros book detail.
      destruct (create_book_cases book s) as [[_ E]|[_ E]]; rewrite E;
        discriminate.
Qed.

(** ** How requests compose *)

Lemma dict_set_stored (k : Z) (v : BookData.t) (d : dict) :
  dict_get k d = Some v -> dict_set k v d = d.
Proof.
  induction d as [|[k' v'] rest IH]; simpl; [discriminate|].
  destruct (Z.eqb_spec k' k) as [->|Hne]; intro H.
  - now injection H as ->.
  - f_equal. now apply IH.
Qed.

Lemma dict_set_twice (k : Z) (v v' : BookData.t) (d : dict) :
  dict_set k v (dict_set k v' d) = dict_set k v d.
Proof.
  induction d as [|[k0 v0] rest IH]; simpl.
  - now rewrite Z.eqb_refl.
  - destruct (Z.eqb_spec k0 k) as [->|Hne]; simpl.
    + now rewrite Z.eqb_refl.
    + destruct (Z.eqb_spec k0 k); [contradiction|]. now rewrite IH.
Qed.

Lemma isbn_conflict_set (k : Z) (isbn : option string) (v : BookData.t)
  (d : dict) :
  isbn_conflict k isbn (dict_set k v d) = isbn_conflict k isbn d.
Proof.
  unfold isbn_conflict.
  induction d as [|[k' v'] rest IH]; simpl.
  - now rewrite Z.eqb_refl.
  - destruct (Z.eqb_spec k' k) as [->|Hne]; simpl.
    + now rewrite Z.eqb_refl.
    + destruct (Z.eqb_spec k' k); [contradiction|]. simpl. now rewrite IH.
Qed.

Lemma overwrite_twice {A : Type} (new : option A) (old : A) :
  overwrite new (overwrite new old) = overwrite new old.
Proof. now destruct new. Qed.

Lemma update_twice (book_data : BookData.t) (u : BookUpdate.t) :
  update (update book_data u) u = update book_data u.
Proof. unfold update. simpl. now rewrite !overwrite_twice. Qed.

Lemma dict_del_appended (k : Z) (v : BookData.t) (d : dict) :
  ~ In k (keys d) -> dict_del k (d ++ [(k, v)])%list = d.
Proof.
  intro Hnot. unfold dict_del. rewrite filter_app. simpl.
  rewrite Z.eqb_refl. simpl. rewrite app_nil_r.
  now apply dict_del_absent.
Qed.

(** X4.  What a successful create or update returns as the book is what
    a get of its id answers in the state the request leaves. *)
Theorem write_then_get (o : op) (s : state) (status : Z) (message : string)
  (view : BookView)
  (Hok : fst (handle o s) = Response status (Created message view)
         \/ fst (handle o s) = Response status (Updated message view)) :
  get_book (id view) (step o s) = (Response 200 (BookBody view), step o s).
Proof.
  unfold step. destruct o as [book|book_id u|book_id]; simpl in *.
  - destruct (create_book_cases book s) as [[_ E]|[_ E]]; rewrite E in *;
      simpl in *; destruct Hok as [H|H]; try discriminate.
    injection H as _ _ <-. simpl. apply get_book_present. simpl.
    apply dict_get_set_same.
  - destruct (update_book_cases book_id u s)
      as [[_ E]|[(isbn & _ & _ & E)|(r & _ & _ & E)]]; rewrite E in *;
      simpl in *; destruct Hok as [H|H]; try discriminate.
    injection H as _ _ <-. simpl. apply get_book_present. simpl.
    apply dict_get_set_same.
  - destruct (dict_get book_id (books_db s)) as [r|] eqn:Hget.
    + rewrite (delete_book_present _ _ _ Hget) in Hok.
      destruct Hok; discriminate.
    + rewrite (delete_book_missing _ _ Hget) in Hok.
      destruct Hok; discriminate.
Qed.

Lemma write_then_get_witness :
  fst (handle (Create dune) initial_state) =
    Response 201 (Created "Book created successfully"
                          (with_id 3 (model_dump dune)))
  /\ get_book 3 (step (Create dune) initial_state) =
       (Response 200 (BookBody (with_id 3 (model_dump dune))),
        step (Create dune) initial_state).
Proof.
  split; [reflexivity|].
  apply (write_then_get (Create dune) initial_state 201
           "Book created successfully" (with_id 3 (model_dump dune))).
  left. reflexivity.
Defined.

(** X5.  An update whose body names no field, sent to an id that is
    present, answers 200 with the stored record and leaves the whole
    state as it was. *)
Theorem update_empty_body (book_id : Z) (s : state) (book_data : BookData.t)
  (Hget : dict_get book_id (books_db s) = Some book_data) :
  update_book book_id BookUpdate.unset s =
    (Response 200 (Updated "Book updated successfully"
                           (with_id book_id book_data)), s).
Proof.
  rewrite (update_book_applied book_id BookUpdate.unset s book_data Hget)
    by (intros isbn H; discriminate H).
  assert (E : update book_data BookUpdate.unset = book_data)
    by now destruct book_data.
  rewrite E, (dict_set_stored _ _ _ Hget). now destruct s.
Qed.

Lemma update_empty_body_witness :
  dict_get 2 (books_db initial_state) = Some nineteen_eighty_four
  /\ update_book 2 BookUpdate.unset initial_state =
       (Response 200 (Updated "Book updated successfully"
                              (with_id 2 nineteen_eighty_four)),
        initial_state).
Proof.
  split; [reflexivity|].
  apply (update_empty_body 2 initial_state nineteen_eighty_four).
  reflexivity.
Defined.

(** X6.  Sending the same update to the same id a second time gives the
    same answer as the first time and changes nothing more, whether the
    first one succeeded or failed. *)
Theorem update_idempotent (book_id : Z) (u : BookUpdate.t) (s : state) :
  update_book book_id u (snd (update_book book_id u s)) =
    (fst (update_book book_id u s), snd (update_book book_id u s)).
Proof.
  destruct (update_book_cases book_id u s)
    as [[_ E]|[(isbn & _ & _ & E)|(r & Hget & Hno & E)]];
    rewrite E; simpl; [exact E|exact E|].
  rewrite (update_book_applied book_id u _ (update r u)); simpl.
  - now rewrite update_twice, dict_set_twice.
  - apply dict_get_set_same.
  - intros isbn Hu. rewrite isbn_conflict_set. now apply Hno.
Qed.

(** X7.  In a reachable state, creating a book and then deleting the id
    it was given puts the catalog back as it was, order included; only
    the counter stays one higher, and the delete returns the payload. *)
Theorem create_then_delete (book : Book.t) (s : state)
  (Hreach : reachable s)
  (Hfresh : isbn_exists (Book.isbn book) (books_db s) = false) :
  delete_book (next_book_id s) (snd (create_book book s)) =
    (Response 200 (Deleted "Book deleted successfully"
                           (with_id (next_book_id s) (model_dump book))),
     mkState (books_db s) (next_book_id s + 1)).
Proof.
  destruct (reachable_invariant s Hreach) as [_ _ Hlt].
  assert (Hnot : ~ In (next_book_id s) (keys (books_db s)))
    by (intro H; apply Hlt in H; lia).
  rewrite create_book_state, Hfresh.
  rewrite (delete_book_present _ _ (model_dump book)); simpl.
  - rewrite (dict_set_absent _ _ _ Hnot).
    now rewrite (dict_del_appended _ _ _ Hnot).
  - apply dict_get_set_same.
Qed.

Lemma create_then_delete_witness :
  reachable initial_state
  /\ isbn_exists (Book.isbn dune) (books_db initial_state) = false
  /\ delete_book 3 (snd (create_book dune initial_state)) =
       (Response 200 (Deleted "Book deleted successfully"
                              (with_id 3 (model_dump dune))),
        mkState (books_db initial_state) 4).
Proof.
  split; [apply reachable_init|]. split; [reflexivity|].
  apply (create_then_delete dune initial_state).
  - apply reachable_init.
  - reflexivity.
Defined.

(** X8.  Deleting an id a second time answers 404 and leaves the state
    the first delete produced, whatever the first delete answered. *)
Theorem delete_twice (book_id : Z) (s : state) :
  delete_book book_id (snd (delete_book book_id s)) =
    (HTTPException 404
       ("Book with ID " ++ str_of_int book_id ++ " not found"),
     snd (delete_book book_id s)).
Proof.
  apply delete_book_missing.
  destruct (dict_get book_id (books_db s)) as [r|] eqn:Hget.
  - rewrite (delete_book_present _ _ _ Hget). simpl.
    apply dict_get_del_same.
  - now rewrite (delete_book_missing _ _ Hget).
Qed.

(** X9.  In a reachable state, deleting a book frees its isbn: a create
    with that isbn, refused before the delete, succeeds right after it
    and gets the counter's value as its id. *)
Theorem delete_frees_isbn (book_id : Z) (book : Book.t) (s : state)
  (book_data : BookData.t)
  (Hreach : reachable s)
  (Hget : dict_get book_id (books_db s) = Some book_data)
  (Hisbn : BookData.isbn book_data = Some (Book.isbn book)) :
  fst (create_book book s) =
    HTTPException 400
      ("Book with ISBN " ++ Book.isbn book ++ " already exists")
  /\ fst (create_book book (snd (delete_book book_id s))) =
       Response 201 (Created "Book created successfully"
                             (with_id (next_book_id s) (model_dump book))).
Proof.
  destruct (reachable_invariant s Hreach) as [_ Hnd _].
  pose proof (dict_get_In _ _ _ Hget) as Hin.
  split.
  - destruct (create_book_cases book s) as [[_ E]|[Hno _]];
      [now rewrite E|].
    assert (H : isbn_exists (Book.isbn book) (books_db s) = true)
      by (apply isbn_exists_true; now exists book_id, book_data).
    congruence.
  - rewrite (delete_book_present _ _ _ Hget). simpl.
    match goal with |- fst (create_book book ?s1) = _ =>
      destruct (create_book_cases book s1) as [[Hyes _]|[_ E]] end;
      [|now rewrite E].
    simpl in Hyes. apply isbn_exists_true in Hyes as (k & v & Hkv & Hv).
    unfold dict_del in Hkv. apply filter_In in Hkv as [Hkv Hne].
    simpl in Hne.
    assert (E : (k, v) = (book_id, book_data))
      by (apply (NoDup_isbns_inj (books_db s)); congruence).
    injection E as -> _. rewrite Z.eqb_refl in Hne. discriminate.
Qed.

Lemma delete_frees_isbn_witness :
  reachable initial_state
  /\ dict_get 1 (books_db initial_state) = Some mockingbird
  /\ BookData.isbn mockingbird = Some (Book.isbn mockingbird_again)
  /\ fst (create_book mockingbird_again
            (snd (delete_book 1 initial_state))) =
       Response 201 (Created "Book created successfully"
                             (with_id 3 (model_dump mockingbird_again))).
Proof.
  split; [apply reachable_init|]. split; [reflexivity|].
  split; [reflexivity|].
  apply (proj2 (delete_frees_isbn 1 mockingbird_again initial_state
                  mockingbird reachable_init eq_refl eq_refl)).
Defined.

(** ** More on the listing *)

Lemma stored_genre_dec (d : dict) :
  (exists k v, In (k, v) d /\ BookData.genre v = None)
  \/ (forall k v, In (k, v) d -> BookData.genre v <> None).
Proof.
  induction d as [|[k v] rest [(k' & v' & Hin & Hnull)|IH]].
  - right. intros k v [].
  - left. exists k', v'. split; [now right|assumption].
  - destruct (BookData.genre v) as [g|] eqn:Hg.
    + right. intros k' v' [E|Hin]; [|now apply (IH k')].
      injection E as <- <-. congruence.
    + left. exists k, v. split; [now left|assumption].
Qed.

(** The three ways [get_all_books] can go. *)
Lemma get_all_books_cases (lower : string -> string)
  (genre : option string) (available : option bool) (s : state) :
  (books_db s = []
   /\ get_all_books lower genre available s =
        (Response 200 (NoBooks "No books in catalog" []), s))
  \/ ((exists g k v,
         truthy genre = Some g /\ In (k, v) (books_db s)
         /\ BookData.genre v = None)
      /\ get_all_books lower genre available s = (Uncaught AttributeError, s))
  \/ (books_db s <> []
      /\ (forall g, truthy genre = Some g ->
                    forall k v, In (k, v) (books_db s) ->
                                BookData.genre v <> None)
      /\ get_all_books lower genre available s =
           (Response 200
              (BookList
                 (Z.of_nat (List.length
                              (listing lower genre available (books_db s))))
                 (listing lower genre available (books_db s))), s)).
Proof.
  destruct (books_db s) as [|e rest] eqn:E.
  - left. split; [reflexivity|]. now apply get_all_books_empty.
  - right. rewrite <- E.
    assert (Hne : books_db s <> []) by congruence.
    assert (Hdec :
      (exists g k v, truthy genre = Some g /\ In (k, v) (books_db s)
                     /\ BookData.genre v = None)
      \/ (forall g, truthy genre = Some g ->
                    forall k v, In (k, v) (books_db s) ->
                                BookData.genre v <> None)).
    { destruct (truthy genre) as [g|].
      - destruct (stored_genre_dec (books_db s))
          as [(k & v & Hin & Hnull)|Hstr].
        + left. now exists g, k, v.
        + right. intros _ _. exact Hstr.
      - right. intros g H. discriminate H. }
    destruct Hdec as [(g & k & v & Ht & Hin & Hnull)|Hstr].
    + left. split; [now exists g, k, v|].
      now apply (get_all_books_null_genre lower genre available s g k v).
    + right. split; [assumption|]. split; [exact Hstr|].
      now apply get_all_books_listing.
Qed.

Lemma In_listing (lower : string -> string) (genre : option string)
  (available : option bool) (d : dict) (b : BookView) :
  In b (listing lower genre available d) ->
  In (id b, data b) d
  /\ genre_kept lower genre (data b) = true
  /\ available_kept available (data b) = true.
Proof.
  unfold listing. intro H. apply in_map_iff in H as [[k v] [<- Hin]].
  apply filter_In in Hin as [Hin Hkeep]. simpl in *.
  apply andb_true_iff in Hkeep. tauto.
Qed.

Lemma listing_length (lower : string -> string) (genre : option string)
  (available : option bool) (d : dict) :
  (List.length (listing lower genre available d) <= List.length d)%nat.
Proof. unfold listing. rewrite length_map. apply filter_length_le. Qed.

Lemma filter_genre_lower (lower : string -> string) (g1 g2 : string)
  (d : dict) :
  lower g1 = lower g2 -> filter_genre lower g1 d = filter_genre lower g2 d.
Proof.
  intro E. induction d as [|[k v] rest IH]; simpl; [reflexivity|].
  now rewrite IH, E.
Qed.

(** X10.  A listing ends in an uncaught exception exactly when a
    non-empty genre is asked for and some stored genre is [None]; the
    exception is then [AttributeError], whatever else the catalog holds
    and whatever availability is asked for. *)
Theorem listing_raises_iff (lower : string -> string)
  (genre : option string) (available : option bool) (s : state) :
  ((exists e, fst (get_all_books lower genre available s) = Uncaught e)
   <-> (exists g, genre = Some g /\ g <> "")
       /\ (exists k v, In (k, v) (books_db s) /\ BookData.genre v = None))
  /\ (forall e, fst (get_all_books lower genre available s) = Uncaught e ->
                e = AttributeError).
Proof.
  destruct (get_all_books_cases lower genre available s)
    as [[Hempty E]|[[(g & k & v & Ht & Hin & Hnull) E]|(Hne & Hstr & E)]];
    rewrite E; simpl.
  - split; [|discriminate]. split; [intros [e H]; discriminate|].
    intros [_ (k & v & Hin & _)]. rewrite Hempty in Hin. contradiction.
  - split; [|congruence]. split; [intros _|intros _; now eexists].
    apply truthy_Some in Ht as [Hg Hne]. split; [now exists g|].
    now exists k, v.
  - split; [|discriminate]. split; [intros [e H]; discriminate|].
    intros [(g & Hg & Hne') (k & v & Hin & Hnull)]. exfalso.
    apply (Hstr g) in Hin; [contradiction|]. apply truthy_Some. now split.
Qed.

(** X11.  Every book of a listing, whatever the filters, can be fetched:
    a get of its id answers 200 with that very book. *)
Theorem listed_book_can_be_fetched (lower : string -> string)
  (genre : option string) (available : option bool) (s : state)
  (b : BookView)
  (Hwf : dict_wf (books_db s))
  (Hin : In b (books_of (fst (get_all_books lower genre available s)))) :
  get_book (id b) s = (Response 200 (BookBody b), s).
Proof.
  destruct (get_all_books_cases lower genre available s)
    as [[_ E]|[[_ E]|(_ & _ & E)]]; rewrite E in Hin; simpl in Hin;
    try contradiction.
  apply In_listing in Hin as [Hin _].
  rewrite (get_book_present (id b) s (data b)); [now destruct b|].
  now apply In_dict_get.
Qed.

Lemma listed_book_can_be_fetched_witness :
  dict_wf (books_db initial_state)
  /\ In (with_id 2 nineteen_eighty_four)
        (books_of (fst (get_all_books str_lower (Some "dystopian")
                                      (Some true) initial_state)))
  /\ get_book 2 initial_state =
       (Response 200 (BookBody (with_id 2 nineteen_eighty_four)),
        initial_state).
Proof.
  pose proof (inv_keys _ initial_invariant) as Hwf.
  assert (Hin : In (with_id 2 nineteen_eighty_four)
                   (books_of (fst (get_all_books str_lower (Some "dystopian")
                                                 (Some true) initial_state))))
    by (simpl; now left).
  split; [exact Hwf|]. split; [exact Hin|].
  exact (listed_book_can_be_fetched str_lower (Some "dystopian") (Some true)
           initial_state (with_id 2 nineteen_eighty_four) Hwf Hin).
Defined.

(** X12.  The genre asked for counts only through its lower-case form:
    two non-empty genres with the same lower-case form give the same
    answer in every state. *)
Theorem genre_case_insensitive (lower : string -> string) (g1 g2 : string)
  (available : option bool) (s : state)
  (Hlower : lower g1 = lower g2) (H1 : g1 <> "") (H2 : g2 <> "") :
  get_all_books lower (Some g1) available s =
  get_all_books lower (Some g2) available s.
Proof.
  unfold get_all_books, truthy.
  destruct (String.eqb_spec g1 ""); [contradiction|].
  destruct (String.eqb_spec g2 ""); [contradiction|].
  now rewrite (filter_genre_lower lower g1 g2 _ Hlower).
Qed.

Lemma genre_case_insensitive_witness :
  str_lower "fiction" = str_lower "FICTION"
  /\ get_all_books str_lower (Some "fiction") None initial_state =
     get_all_books str_lower (Some "FICTION") None initial_state.
Proof.
  split; [reflexivity|].
  apply (genre_case_insensitive str_lower "fiction" "FICTION" None
           initial_state); [reflexivity|discriminate|discriminate].
Defined.

(** X13.  Filters only take books away: every book of a filtered
    listing is in the unfiltered one, a filtered listing is no longer
    than the unfiltered one, and whenever an answer carries
    [total_books] it is the number of books in its list. *)
Theorem filtered_within_unfiltered (lower : string -> string)
  (genre : option string) (available : option bool) (s : state) :
  (forall b,
     In b (books_of (fst (get_all_books lower genre available s))) ->
     In b (books_of (fst (get_all_books lower None None s))))
  /\ (List.length
        (books_of (fst (get_all_books lower genre available s)))
      <= List.length (books_of (fst (get_all_books lower None None s))))%nat
  /\ (forall n,
        total_books_of (fst (get_all_books lower genre available s)) =
          Some n ->
        n = Z.of_nat
              (List.length
                 (books_of (fst (get_all_books lower genre available s))))).
Proof.
  destruct (get_all_books_cases lower genre available s)
    as [[_ E]|[[_ E]|(Hne & _ & E)]]; rewrite E; simpl;
    try (split; [intros b []|split; [lia|discriminate]]).
  rewrite (get_all_books_unfiltered lower s Hne). simpl.
  split; [|split].
  - intros b Hin. apply In_listing in Hin as [Hin _].
    apply in_map_iff. exists (id b, data b). split; [now destruct b|].
    assumption.
  - rewrite length_map. apply listing_length.
  - intros n H. now injection H as <-.
Qed.

Lemma listing_partition (lower : string -> string) (genre : option string)
  (d : dict) :
  (forall k v, In (k, v) d -> BookData.available v <> None) ->
  (List.length (listing lower genre (Some true) d)
   + List.length (listing lower genre (Some false) d))%nat
  = List.length (listing lower genre None d).
Proof.
  unfold listing. rewrite !length_map.
  induction d as [|[k v] rest IH]; simpl; intro Hav; [reflexivity|].
  assert (IH' := IH (fun k' v' H => Hav k' v' (or_intror H))).
  simpl in IH'.
  destruct (genre_kept lower genre v); simpl; [|exact IH'].
  destruct (BookData.available v) as [[|]|] eqn:Ha; simpl; try lia.
  exfalso. apply (Hav k v); [now left|assumption].
Qed.

(** X14.  Where every stored availability is a boolean, the books
    listed as available and the books listed as not available, under the
    same genre filter, together are as many as the books listed without
    an availability filter. *)
Theorem availability_partition (lower : string -> string)
  (genre : option string) (s : state)
  (Hav : forall k v, In (k, v) (books_db s) ->
                     BookData.available v <> None) :
  (List.length
     (books_of (fst (get_all_books lower genre (Some true) s)))
   + List.length
       (books_of (fst (get_all_books lower genre (Some false) s))))%nat
  = List.length (books_of (fst (get_all_books lower genre None s))).
Proof.
  destruct (get_all_books_cases lower genre None s)
    as [[Hempty E]|[[(g & k & v & Ht & Hin & Hnull) E]|(Hne & Hstr & E)]];
    rewrite E.
  - now rewrite !get_all_books_empty.
  - now rewrite !(get_all_books_null_genre lower genre _ s g k v).
  - rewrite !get_all_books_listing by assumption. simpl.
    now apply listing_partition.
Qed.

Lemma availability_partition_witness :
  (forall k v, In (k, v) (books_db (step (Create dune) initial_state)) ->
               BookData.available v <> None)
  /\ (List.length
        (books_of (fst (get_all_books str_lower None (Some true)
                          (step (Create dune) initial_state))))
      + List.length
          (books_of (fst (get_all_books str_lower None (Some false)
                            (step (Create dune) initial_state)))))%nat
     = 3%nat.
Proof.
  assert (H : forall k v,
            In (k, v) (books_db (step (Create dune) initial_state)) ->
            BookData.available v <> None).
  { intros k v Hin. simpl in Hin.
    destruct Hin as [E|[E|[E|[]]]]; injection E as <- <-; discriminate. }
  split; [exact H|].
  exact (availability_partition str_lower None
           (step (Create dune) initial_state) H).
Defined.

(** X15.  In a reachable state a created book goes to the end of the
    unfiltered listing: the listing after the create is the listing
    before it followed by the new book under its new id. *)
Theorem create_appends_to_listing (lower : string -> string)
  (book : Book.t) (s : state)
  (Hreach : reachable s)
  (Hfresh : isbn_exists (Book.isbn book) (books_db s) = false) :
  books_of (fst (get_all_books lower None None (snd (create_book book s))))
  = (books_of (fst (get_all_books lower None None s))
     ++ [with_id (next_book_id s) (model_dump book)])%list.
Proof.
  destruct (reachable_invariant s Hreach) as [_ _ Hlt].
  assert (Hnot : ~ In (next_book_id s) (keys (books_db s)))
    by (intro H; apply Hlt in H; lia).
  rewrite create_book_state, Hfresh.
  rewrite get_all_books_unfiltered; simpl;
    rewrite (dict_set_absent _ _ _ Hnot);
    [|intro E; now apply app_eq_nil in E as [_ E]].
  rewrite map_app. simpl. f_equal.
  destruct (books_db s) as [|e rest] eqn:E.
  - now rewrite get_all_books_empty.
  - rewrite get_all_books_unfiltered by congruence. now rewrite E.
Qed.

Lemma create_appends_to_listing_witness :
  reachable initial_state
  /\ isbn_exists (Book.isbn dune) (books_db initial_state) = false
  /\ books_of (fst (get_all_books str_lower None None
                      (snd (create_book dune initial_state))))
     = [with_id 1 mockingbird; with_id 2 nineteen_eighty_four;
        with_id 3 (model_dump dune)].
Proof.
  split; [apply reachable_init|]. split; [reflexivity|].
  exact (create_appends_to_listing str_lower dune initial_state
           reachable_init eq_refl).
Defined.

(** X16.  Once an update has set the genre of a book to [null], every
    listing that asks for a non-empty genre raises [AttributeError] and
    answers nothing, for any availability asked for. *)
Theorem nulled_genre_breaks_listing (lower : string -> string)
  (book_id : Z) (u : BookUpdate.t) (s : state) (old : BookData.t)
  (g : string) (available : option bool)
  (Hget : dict_get book_id (books_db s) = Some old)
  (Hfree : isbn_free book_id u (books_db s))
  (Hnull : BookUpdate.genre u = Some None)
  (Hg : g <> "") :
  get_all_books lower (Some g) available (snd (update_book book_id u s)) =
    (Uncaught AttributeError, snd (update_book book_id u s)).
Proof.
  rewrite (update_book_free book_id u s old Hget Hfree). simpl.
  apply (get_all_books_null_genre lower (Some g) available _ g book_id
           (update old u)).
  - apply truthy_Some. now split.
  - simpl. apply dict_get_In. apply dict_get_set_same.
  - simpl. now rewrite Hnull.
Qed.

Lemma nulled_genre_breaks_listing_witness :
  dict_get 1 (books_db initial_state) = Some mockingbird
  /\ isbn_free 1 null_genre (books_db initial_state)
  /\ fst (get_all_books str_lower (Some "Dystopian") (Some true)
            (snd (update_book 1 null_genre initial_state))) =
     Uncaught AttributeError.
Proof.
  assert (Hfree : isbn_free 1 null_genre (books_db initial_state))
    by (intros isbn k v Hu; discriminate Hu).
  split; [reflexivity|]. split; [exact Hfree|].
  rewrite (nulled_genre_breaks_listing str_lower 1 null_genre initial_state
             mockingbird "Dystopian" (Some true) eq_refl Hfree eq_refl).
  - reflexivity.
  - discriminate.
Defined.

(** ** What the details say *)

Lemma str_of_int_inj (a b : Z) : str_of_int a = str_of_int b -> a = b.
Proof.
  unfold str_of_int. intro H.
  assert (Hnorm : forall z, Z.to_int z <> Decimal.Pos Decimal.Nil
                            /\ Z.to_int z <> Decimal.Neg Decimal.Nil).
  { intro z. pose proof (DecimalZ.to_of (Z.to_int z)) as E.
    rewrite DecimalZ.of_to in E.
    split; intro C; rewrite C in E; discriminate E. }
  apply DecimalZ.to_int_inj.
  assert (E : Some (Z.to_int a) = Some (Z.to_int b)).
  { rewrite <- (NilZero.isi (Z.to_int a)) by apply Hnorm.
    rewrite <- (NilZero.isi (Z.to_int b)) by apply Hnorm.
    now rewrite H. }
  now injection E.
Qed.

Lemma length_append (x t : string) :
  String.length (x ++ t) = (String.length x + String.length t)%nat.
Proof. induction x as [|c x IH]; simpl; [reflexivity|now rewrite IH]. Qed.

Lemma append_cancel_r (x y t : string) : x ++ t = y ++ t -> x = y.
Proof.
  revert y. induction x as [|a x IH]; intros [|b y] H; simpl in H.
  - reflexivity.
  - apply (f_equal String.length) in H. simpl in H.
    rewrite length_append in H. lia.
  - apply (f_equal String.length) in H. simpl in H.
    rewrite length_append in H. lia.
  - injection H as -> H. f_equal. now apply IH.
Qed.

(** X17.  A detail tells what it is about: two 404 answers with the
    same detail are for the same id, and two refused creates with the
    same detail were sent the same isbn. *)
Theorem details_name_their_subject :
  (forall a b, not_found a = not_found b -> a = b)
  /\ (forall book1 book2 s1 s2 detail,
        fst (create_book book1 s1) = HTTPException 400 detail ->
        fst (create_book book2 s2) = HTTPException 400 detail ->
        Book.isbn book1 = Book.isbn book2).
Proof.
  split.
  - intros a b H. unfold not_found in H. injection H as H.
    apply str_of_int_inj. now apply append_cancel_r in H.
  - intros book1 book2 s1 s2 detail H1 H2.
    destruct (create_book_cases book1 s1) as [[_ E1]|[_ E1]];
      rewrite E1 in H1; [|discriminate].
    destruct (create_book_cases book2 s2) as [[_ E2]|[_ E2]];
      rewrite E2 in H2; [|discriminate].
    simpl in H1, H2. injection H1 as H1. injection H2 as H2.
    rewrite <- H2 in H1. injection H1 as H1.
    now apply append_cancel_r in H1.
Qed.

Lemma details_name_their_subject_witness :
  fst (create_book mockingbird_again initial_state) =
    HTTPException 400 "Book with ISBN 978-0-06-112008-4 already exists"
  /\ fst (create_book mockingbird_again (step (Delete 2) initial_state)) =
       HTTPException 400 "Book with ISBN 978-0-06-112008-4 already exists"
  /\ Book.isbn mockingbird_again = Book.isbn mockingbird_again.
Proof.
  split; [reflexivity|]. split; [reflexivity|].
  apply (proj2 details_name_their_subject mockingbird_again mockingbird_again
           initial_state (step (Delete 2) initial_state)
           "Book with ISBN 978-0-06-112008-4 already exists");
    reflexivity.
Defined.

(** ** The range of the ids *)

Lemma step_keys (o : op) (s : state) (k : Z) :
  In k (keys (books_db (step o s))) ->
  In k (keys (books_db s)) \/ k = next_book_id s.
Proof.
  unfold step. destruct o as [book|book_id u|book_id]; simpl.
  - rewrite create_book_state.
    destruct (isbn_exists _ _); [now left|]. simpl. unfold keys.
    intro H. apply in_map_iff in H as [[k' v'] [Hk Hin]]. simpl in Hk.
    subst k'. apply In_dict_set in Hin as [E|Hin].
    + right. now injection E.
    + left. now apply In_keys with v'.
  - destruct (update_book_cases book_id u s)
      as [[_ E]|[(isbn & _ & _ & E)|(r & Hget & _ & E)]]; rewrite E;
      simpl; try (now left).
    rewrite dict_set_present; [now left|].
    apply In_keys with r. now apply dict_get_In.
  - destruct (dict_get book_id (books_db s)) as [r|] eqn:Hget.
    + rewrite (delete_book_present _ _ _ Hget). simpl. intro H. left.
      now apply dict_del_incl with book_id.
    + rewrite (delete_book_missing _ _ Hget). now left.
Qed.

Lemma reachable_positive (s : state) :
  reachable s ->
  3 <= next_book_id s /\ forall k, In k (keys (books_db s)) -> 1 <= k.
Proof.
  induction 1 as [|s o _ [Hnext Hpos]].
  - split; [simpl; lia|]. simpl. intros k [<-|[<-|[]]]; lia.
  - pose proof (step_counter o s). split; [lia|].
    intros k Hk. apply step_keys in Hk as [Hk| ->]; [now apply Hpos|lia].
Qed.

(** X18.  In every reachable state the counter is at least 3, every id
    of the catalog lies between 1 and the counter minus one, and so the
    catalog never holds more books than the counter minus one. *)
Theorem reachable_ids_in_range (s : state) (Hreach : reachable s) :
  3 <= next_book_id s
  /\ (forall k, In k (keys (books_db s)) -> 1 <= k < next_book_id s)
  /\ Z.of_nat (List.length (books_db s)) <= next_book_id s - 1.
Proof.
  destruct (reachable_positive s Hreach) as [Hnext Hpos].
  destruct (reachable_invariant s Hreach) as [Hwf _ Hlt].
  split; [exact Hnext|].
  assert (Hrange : forall k, In k (keys (books_db s)) ->
                             1 <= k < next_book_id s)
    by (intros k Hk; split; [now apply Hpos|now apply Hlt]).
  split; [exact Hrange|].
  assert (Hincl : incl (keys (books_db s))
                       (map Z.of_nat
                            (seq 1 (Z.to_nat (next_book_id s - 1))))).
  { intros k Hk. apply Hrange in Hk. apply in_map_iff.
    exists (Z.to_nat k). split; [lia|]. apply in_seq. lia. }
  apply (NoDup_incl_length Hwf) in Hincl.
  unfold keys in Hincl. rewrite !length_map, length_seq in Hincl. lia.
Qed.

Lemma reachable_ids_in_range_witness :
  reachable (step (Create dune) initial_state)
  /\ Z.of_nat (List.length (books_db (step (Create dune) initial_state)))
     <= 4 - 1.
Proof.
  assert (H : reachable (step (Create dune) initial_state))
    by (apply reachable_step; apply reachable_init).
  split; [exact H|].
  exact (proj2 (proj2 (reachable_ids_in_range _ H))).
Defined.

(** ** A null isbn in the uniqueness check *)

Definition null_isbn : BookUpdate.t :=
  BookUpdate.mk None None (Some None) None None None.

(** X19.  [null] counts as a value in the isbn check of an update: while
    one book holds [None] as its isbn, an update that sets the isbn of
    another book to [null] is refused with 400, the detail printing the
    value as None, and nothing is written. *)
Theorem second_null_isbn_refused (book_id other : Z) (u : BookUpdate.t)
  (s : state) (book_data other_data : BookData.t)
  (Hget : dict_get book_id (books_db s) = Some book_data)
  (Hother : dict_get other (books_db s) = Some other_data)
  (Hne : other <> book_id)
  (Hnone : BookData.isbn other_data = None)
  (Hu : BookUpdate.isbn u = Some None) :
  update_book book_id u s =
    (HTTPException 400 "ISBN None already exists for another book", s).
Proof.
  apply (update_book_conflict book_id u s None); [congruence|assumption|].
  apply isbn_conflict_true. exists other, other_data.
  split; [now apply dict_get_In|]. now split.
Qed.

Lemma second_null_isbn_refused_witness :
  dict_get 2 (books_db (step (Update 1 null_isbn) initial_state)) =
    Some nineteen_eighty_four
  /\ BookData.isbn
       (BookData.mk (Some "To Kill a Mockingbird") (Some "Harper Lee") None
                    (Some 1960) (Some "Fiction") (Some true)) = None
  /\ update_book 2 null_isbn (step (Update 1 null_isbn) initial_state) =
       (HTTPException 400 "ISBN None already exists for another book",
        step (Update 1 null_isbn) initial_state).
Proof.
  split; [reflexivity|]. split; [reflexivity|].
  apply (second_null_isbn_refused 2 1 null_isbn
           (step (Update 1 null_isbn) initial_state) nineteen_eighty_four
           (BookData.mk (Some "To Kill a Mockingbird") (Some "Harper Lee")
                        None (Some 1960) (Some "Fiction") (Some true)));
    [reflexivity|reflexivity|discriminate|reflexivity|reflexivity].
Defined.
